(** * The WASAPI driver of oto (driver_wasapi_windows.go)

    A shallow embedding of the driver: the COM apartment worker, the setup
    job [initOnCOMThread], the render loop and its fill cycle
    [writeOnRenderThread], [Suspend], [Resume] and [Err].

    The audio subsystem is outside the program.  It is modelled as an oracle
    that answers every call from the history of calls made so far, and every
    call the driver makes is appended to a log, so that "which calls were
    made, in which order, with which arguments" is a statement about a list. *)

From Stdlib Require Import ZArith List String Bool Lia.
Import ListNotations.
Local Open Scope Z_scope.

(* ================================================================= *)
(** ** Go values: machine integers, errors, slices *)

Module Go.

(** [uint16(x)], [uint32(x)]: conversion to an unsigned type keeps the low
    bits. *)
Definition uint16 (x : Z) : Z := x mod 2 ^ 16.
Definition uint32 (x : Z) : Z := x mod 2 ^ 32.

(** [int] is the 64-bit signed type of the windows/amd64 and windows/arm64
    ports; arithmetic wraps around silently. *)
Definition int (x : Z) : Z := (x + 2 ^ 63) mod 2 ^ 64 - 2 ^ 63.
Definition int_mul (a b : Z) : Z := int (a * b).
(** Integer division truncates toward zero. *)
Definition int_div (a b : Z) : Z := int (Z.quot a b).

Definition is_uint32 (x : Z) : Prop := 0 <= x < 2 ^ 32.
Definition is_int (x : Z) : Prop := - 2 ^ 63 <= x < 2 ^ 63.

(** A non-nil [error] value: an error code handed back by a system call,
    or the result of [fmt.Errorf] (kept as format and arguments). *)
Inductive errval : Type :=
| SysErr (code : Z)
| Errorf (format : string) (args : list Z).

(** The interface type [error]; [None] is [nil]. *)
Definition error : Type := option errval.

(** How a call ends: it returns its [error] result, or it panics. *)
Inductive outcome : Type :=
| Return (e : error)
| Panic (msg : string).

(** A slice header of a [[]float32]: logical length and allocated
    capacity.  The nil slice has both zero. *)
Record slice : Type := mkSlice { sl_len : Z; sl_cap : Z }.

Definition nil_slice : slice := mkSlice 0 0.
Definition len (s : slice) : Z := sl_len s.
Definition cap (s : slice) : Z := sl_cap s.

(** [make([]float32, n)]: length and capacity [n]; panics on a negative
    length. *)
Definition make (n : Z) : option slice :=
  if n <? 0 then None else Some (mkSlice n n).

(** [s[:n]]: same backing array and capacity, length [n]; panics unless
    [0 <= n <= cap(s)]. *)
Definition reslice (s : slice) (n : Z) : option slice :=
  if (0 <=? n) && (n <=? sl_cap s) then Some (mkSlice n (sl_cap s)) else None.

End Go.
Import Go.

(* ================================================================= *)
(** ** The Windows API bindings *)

Module Api.

Record GUID : Type := mkGUID { Data1 : Z; Data2 : Z; Data3 : Z; Data4 : list Z }.

(** The format descriptor, with the fields the literal of lines 156-167
    sets. *)
Record _WAVEFORMATEXTENSIBLE : Type := mkFormat {
  wFormatTag : Z;
  nChannels : Z;
  nSamplesPerSec : Z;
  nAvgBytesPerSec : Z;
  nBlockAlign : Z;
  wBitsPerSample : Z;
  cbSize : Z;
  Samples : Z;
  dwChannelMask : Z;
  SubFormat : GUID
}.

(** Modelled from the spec: the constants of the package's Windows API
    bindings, which are declared in a file that is not among the sources
    here.  The spec names them (front-center, front-left, front-right,
    shared mode, event callback, no persisted settings, the "signaled"
    wait code, the infinite timeout); the numerals are those of the
    platform headers. *)
Definition _COINIT_MULTITHREADED : Z := 0.
Definition _AudioCategory_Other : Z := 0.
Definition _WAVE_FORMAT_EXTENSIBLE : Z := 0xFFFE.
Definition _SPEAKER_FRONT_LEFT : Z := 0x1.
Definition _SPEAKER_FRONT_RIGHT : Z := 0x2.
Definition _SPEAKER_FRONT_CENTER : Z := 0x4.
Definition _AUDCLNT_SHAREMODE_SHARED : Z := 0.
Definition _AUDCLNT_STREAMFLAGS_EVENTCALLBACK : Z := 0x00040000.
Definition _AUDCLNT_STREAMFLAGS_NOPERSIST : Z := 0x00080000.
Definition _KSDATAFORMAT_SUBTYPE_IEEE_FLOAT : GUID :=
  mkGUID 0x00000003 0x0000 0x0010 [0x80; 0x00; 0x00; 0xaa; 0x00; 0x38; 0x9b; 0x71].
Definition INFINITE : Z := 0xFFFFFFFF.
Definition WAIT_OBJECT_0 : Z := 0.

(** Every call that leaves the driver, with the arguments the driver
    chooses.  Receivers ([c.client], [c.renderClient], the enumerator, the
    device) are fixed by the call's name. *)
Inductive Call : Type :=
| CoInitializeEx (coinit : Z)
| CoUninitialize
| CoCreateInstance
| GetDefaultAudioEndPoint
| EnumeratorRelease
| DeviceRelease
| Activate
| SetClientProperties (bIsOffload eCategory : Z)
| IsFormatSupported (shareMode : Z) (f : _WAVEFORMATEXTENSIBLE)
| Initialize (shareMode streamFlags : Z) (f : option _WAVEFORMATEXTENSIBLE)
| GetBufferSize
| GetService
| CreateEventEx
| SetEventHandle (h : Z)
| ClientStart
| ClientStop
| GoRenderThread
| WaitForSingleObject (h timeout : Z)
| MutexLock
| MutexUnlock
| GetCurrentPadding
| GetBuffer (frames : Z)
| MakeFloat32s (n : Z)
| ReadFloat32s (n : Z)
| CopyToDevice (dst n : Z)
| ReleaseBuffer (frames flags : Z).

(** What a call hands back.  One shape serves all calls; each reads the
    components its Go signature has: a pointer or handle, a [uint32], the
    closest format of [IsFormatSupported], and the [error]. *)
Record Response : Type := mkResponse {
  r_ptr : Z;
  r_u32 : Z;
  r_closest : option _WAVEFORMATEXTENSIBLE;
  r_err : error
}.

(** The platform: the answer to the last call of a history. *)
Definition Platform : Type := list Call -> Response.

End Api.
Import Api.

(* ================================================================= *)
(** ** The error cell *)

(** Modelled from the spec: the type [atomicError] with [TryStore] and
    [Load] is declared elsewhere in the package.  The spec describes it as
    an atomic optional-error cell, empty at first, with a
    compare-and-set-if-empty update: the first error sticks and later
    writes are ignored. *)
Definition atomicError : Type := error.

(** Modelled from the spec: the zero value of the cell, "empty". *)
Definition atomicError_zero : atomicError := None.

(** Modelled from the spec: [TryStore], the compare-and-set-if-empty update
    ("first error sticks, later writes are ignored"). *)
Definition TryStore (a : atomicError) (e : error) : atomicError :=
  match a with
  | None => e
  | Some _ => a
  end.

(** Modelled from the spec: [Load], the read of the cell. *)
Definition Load (a : atomicError) : error := a.

(* ================================================================= *)
(** ** The driver context *)

(** [wasapiContext].  The worker [comThread] and the mutex [m] have no field
    here: a job handed to the worker runs in place (see [comThread_Run]),
    and taking and releasing the mutex are logged calls. *)
Record wasapiContext : Type := mkContext {
  sampleRate : Z;
  channelCount : Z;
  mux : Z;
  err : atomicError;
  sampleReadyEvent : Z;
  client : Z;
  mixFormat : option _WAVEFORMATEXTENSIBLE;
  bufferFrames : Z;
  renderClient : Z;
  buf : slice
}.

Definition set_err (v : atomicError) (c : wasapiContext) : wasapiContext :=
  mkContext (sampleRate c) (channelCount c) (mux c) v
    (sampleReadyEvent c) (client c) (mixFormat c) (bufferFrames c)
    (renderClient c) (buf c).
Definition set_sampleReadyEvent (v : Z) (c : wasapiContext) : wasapiContext :=
  mkContext (sampleRate c) (channelCount c) (mux c) (err c)
    v (client c) (mixFormat c) (bufferFrames c) (renderClient c) (buf c).
Definition set_client (v : Z) (c : wasapiContext) : wasapiContext :=
  mkContext (sampleRate c) (channelCount c) (mux c) (err c)
    (sampleReadyEvent c) v (mixFormat c) (bufferFrames c) (renderClient c)
    (buf c).
Definition set_mixFormat (v : option _WAVEFORMATEXTENSIBLE) (c : wasapiContext)
  : wasapiContext :=
  mkContext (sampleRate c) (channelCount c) (mux c) (err c)
    (sampleReadyEvent c) (client c) v (bufferFrames c) (renderClient c)
    (buf c).
Definition set_bufferFrames (v : Z) (c : wasapiContext) : wasapiContext :=
  mkContext (sampleRate c) (channelCount c) (mux c) (err c)
    (sampleReadyEvent c) (client c) (mixFormat c) v (renderClient c) (buf c).
Definition set_renderClient (v : Z) (c : wasapiContext) : wasapiContext :=
  mkContext (sampleRate c) (channelCount c) (mux c) (err c)
    (sampleReadyEvent c) (client c) (mixFormat c) (bufferFrames c) v (buf c).
Definition set_buf (v : slice) (c : wasapiContext) : wasapiContext :=
  mkContext (sampleRate c) (channelCount c) (mux c) (err c)
    (sampleReadyEvent c) (client c) (mixFormat c) (bufferFrames c)
    (renderClient c) v.

(* ================================================================= *)
(** ** Running the driver against a platform *)

(** The state a method of the context runs in: the context it mutates and
    the log of the calls made so far. *)
Record state : Type := mkState { st_ctx : wasapiContext; st_log : list Call }.

Definition M (A : Type) : Type := Platform -> state -> A * state.

Definition ret {A : Type} (a : A) : M A := fun _ s => (a, s).

Definition bind {A B : Type} (m : M A) (k : A -> M B) : M B :=
  fun P s => let (a, s') := m P s in k a P s'.

(** Make a call: log it and take the platform's answer. *)
Definition call (c : Call) : M Response :=
  fun P s =>
    let h := st_log s ++ [c] in
    (P h, mkState (st_ctx s) h).

Definition get : M wasapiContext := fun _ s => (st_ctx s, s).

Definition modify (f : wasapiContext -> wasapiContext) : M unit :=
  fun _ s => (tt, mkState (f (st_ctx s)) (st_log s)).

Declare Scope drv_scope.
Delimit Scope drv_scope with drv.

Notation "x <- m ;; k" := (bind m (fun x => k))
  (at level 61, m at next level, right associativity) : drv_scope.
Notation "m ;; k" := (bind m (fun _ => k))
  (at level 61, right associativity) : drv_scope.

(** [if err := m; err != nil { return err }] *)
Definition check (m : M error) (k : M error) : M error :=
  bind m (fun e => match e with Some _ => ret e | None => k end).

(** [x, err := m; if err != nil { return err }] *)
Definition check_val {A : Type} (m : M (A * error)) (k : A -> M error) : M error :=
  bind m (fun r => match snd r with Some e => ret (Some e) | None => k (fst r) end).

Notation "'check!' m ;; k" := (check m k)
  (at level 61, m at next level, right associativity) : drv_scope.
Notation "x <-! m ;; k" := (check_val m (fun x => k))
  (at level 61, m at next level, right associativity) : drv_scope.

Local Open Scope drv_scope.

(** The calls as the Go bindings type them. *)
Definition ptr_call (c : Call) : M (Z * error) :=
  r <- call c ;; ret (r_ptr r, r_err r).
Definition u32_call (c : Call) : M (Z * error) :=
  r <- call c ;; ret (uint32 (r_u32 r), r_err r).
Definition err_call (c : Call) : M error :=
  r <- call c ;; ret (r_err r).
Definition emit (c : Call) : M unit :=
  _ <- call c ;; ret tt.

Definition _CoInitializeEx (coinit : Z) : M error := err_call (CoInitializeEx coinit).
Definition _CoUninitialize : M unit := emit CoUninitialize.
Definition _CoCreateInstance : M (Z * error) := ptr_call CoCreateInstance.
Definition enumerator_GetDefaultAudioEndPoint : M (Z * error) :=
  ptr_call GetDefaultAudioEndPoint.
Definition device_Activate : M (Z * error) := ptr_call Activate.
Definition client_SetClientProperties (bIsOffload eCategory : Z) : M error :=
  err_call (SetClientProperties bIsOffload eCategory).
Definition client_IsFormatSupported (shareMode : Z) (f : _WAVEFORMATEXTENSIBLE)
  : M (option _WAVEFORMATEXTENSIBLE * error) :=
  r <- call (IsFormatSupported shareMode f) ;; ret (r_closest r, r_err r).
Definition client_Initialize (shareMode streamFlags : Z)
  (f : option _WAVEFORMATEXTENSIBLE) : M error :=
  err_call (Initialize shareMode streamFlags f).
Definition client_GetBufferSize : M (Z * error) := u32_call GetBufferSize.
Definition client_GetService : M (Z * error) := ptr_call GetService.
Definition windows_CreateEventEx : M (Z * error) := ptr_call CreateEventEx.
Definition client_SetEventHandle (h : Z) : M error := err_call (SetEventHandle h).
Definition client_Start : M error := err_call ClientStart.
Definition client_Stop : M error := err_call ClientStop.
Definition windows_WaitForSingleObject (h timeout : Z) : M (Z * error) :=
  u32_call (WaitForSingleObject h timeout).
Definition client_GetCurrentPadding : M (Z * error) := u32_call GetCurrentPadding.
Definition renderClient_GetBuffer (frames : Z) : M (Z * error) :=
  ptr_call (GetBuffer frames).
Definition renderClient_ReleaseBuffer (frames flags : Z) : M error :=
  err_call (ReleaseBuffer frames flags).
Definition mux_ReadFloat32s (b : slice) : M unit := emit (ReadFloat32s (len b)).

(** [defer d] in front of [body]: [d] runs when [body] has returned. *)
Definition defer {A : Type} (d : M unit) (body : M A) : M A :=
  a <- body ;; d ;; ret a.

(* ================================================================= *)
(** ** Setup: [initOnCOMThread] *)

Definition bitsPerSample : Z := 32.

(** Lines 148-167: the candidate format descriptor. *)
Definition candidate_nBlockAlign (c : wasapiContext) : Z :=
  int_div (int_mul (channelCount c) bitsPerSample) 8.

Definition candidate_channelMask (c : wasapiContext) : Z :=
  if channelCount c =? 1 then _SPEAKER_FRONT_CENTER
  else if channelCount c =? 2 then Z.lor _SPEAKER_FRONT_LEFT _SPEAKER_FRONT_RIGHT
  else 0.

Definition candidateFormat (c : wasapiContext) : _WAVEFORMATEXTENSIBLE :=
  let nBlockAlign := candidate_nBlockAlign c in
  let channelMask := uint32 (candidate_channelMask c) in
  {| wFormatTag := _WAVE_FORMAT_EXTENSIBLE;
     nChannels := uint16 (channelCount c);
     nSamplesPerSec := uint32 (sampleRate c);
     nAvgBytesPerSec := uint32 (int_mul (sampleRate c) nBlockAlign);
     nBlockAlign := uint16 nBlockAlign;
     wBitsPerSample := bitsPerSample;
     cbSize := 0x16;
     Samples := bitsPerSample;
     dwChannelMask := channelMask;
     SubFormat := _KSDATAFORMAT_SUBTYPE_IEEE_FLOAT |}.

Definition format_not_supported : errval :=
  Errorf "oto: the specified format is not supported (there is the closest format instead)"%string [].

Definition initOnCOMThread : M error :=
  _ <-! _CoCreateInstance ;;
  defer (emit EnumeratorRelease) (
    _ <-! enumerator_GetDefaultAudioEndPoint ;;
    defer (emit DeviceRelease) (
      client <-! device_Activate ;;
      modify (set_client client) ;;
      check! client_SetClientProperties 0 _AudioCategory_Other ;;
      c <- get ;;
      let f := candidateFormat c in
      closest <-! client_IsFormatSupported _AUDCLNT_SHAREMODE_SHARED f ;;
      match closest with
      | Some _ => ret (Some format_not_supported)
      | None =>
        modify (set_mixFormat (Some f)) ;;
        c <- get ;;
        check! client_Initialize _AUDCLNT_SHAREMODE_SHARED
          (Z.lor _AUDCLNT_STREAMFLAGS_EVENTCALLBACK _AUDCLNT_STREAMFLAGS_NOPERSIST)
          (mixFormat c) ;;
        frames <-! client_GetBufferSize ;;
        modify (set_bufferFrames frames) ;;
        renderClient <-! client_GetService ;;
        modify (set_renderClient renderClient) ;;
        ev <-! windows_CreateEventEx ;;
        modify (set_sampleReadyEvent ev) ;;
        c <- get ;;
        check! client_SetEventHandle (sampleReadyEvent c) ;;
        check! client_Start ;;
        emit GoRenderThread ;;
        ret None
      end)).

(* ================================================================= *)
(** ** The fill cycle: [writeOnRenderThread] *)

(** Early returns of a function whose body may also panic. *)
Definition check_out (m : M error) (k : M outcome) : M outcome :=
  bind m (fun e => match e with Some _ => ret (Return e) | None => k end).

Definition check_val_out {A : Type} (m : M (A * error)) (k : A -> M outcome)
  : M outcome :=
  bind m (fun r => match snd r with
                   | Some e => ret (Return (Some e))
                   | None => k (fst r)
                   end).

Definition or_panic {A : Type} (o : option A) (msg : string) (k : A -> M outcome)
  : M outcome :=
  match o with
  | Some a => k a
  | None => ret (Panic msg)
  end.

Notation "'check!!' m ;; k" := (check_out m k)
  (at level 61, m at next level, right associativity) : drv_scope.
Notation "x <-!! m ;; k" := (check_val_out m (fun x => k))
  (at level 61, m at next level, right associativity) : drv_scope.

(** Lines 269-274: make room for [buflen] samples, then go on with the
    buffer. *)
Definition grow_buf (b : slice) (buflen : Z) (k : slice -> M outcome)
  : M outcome :=
  if cap b <? buflen then
    or_panic (make buflen) "makeslice: len out of range" (fun b' =>
      emit (MakeFloat32s buflen) ;;
      k b')
  else
    or_panic (reslice b buflen) "slice bounds out of range" k.

Definition writeOnRenderThread : M outcome :=
  emit MutexLock ;;
  defer (emit MutexUnlock) (
    paddingFrames <-!! client_GetCurrentPadding ;;
    c <- get ;;
    let frames := uint32 (bufferFrames c - paddingFrames) in
    if frames <=? 0 then ret (Return None)
    else
      dstBuf <-!! renderClient_GetBuffer frames ;;
      let buflen := int_mul (int frames) (channelCount c) in
      grow_buf (buf c) buflen (fun b =>
        modify (set_buf b) ;;
        c <- get ;;
        mux_ReadFloat32s (buf c) ;;
        emit (CopyToDevice dstBuf (Z.min buflen (len (buf c)))) ;;
        check!! renderClient_ReleaseBuffer frames 0 ;;
        c <- get ;;
        or_panic (reslice (buf c) 0) "slice bounds out of range" (fun b0 =>
          modify (set_buf b0) ;;
          ret (Return None)))).

(* ================================================================= *)
(** ** The render loop *)

Definition wait_failed (evt : Z) : errval :=
  Errorf "oto: WaitForSingleObject failed: returned value: %d" [evt].

(** [loopOnRenderThread] leaves its [for] only by returning.  [fuel] bounds
    the number of wake-ups followed; [None] means the loop is still
    waiting when the fuel is spent. *)
Fixpoint loopOnRenderThread (fuel : nat) : M (option outcome) :=
  match fuel with
  | O => ret None
  | S fuel' =>
    c <- get ;;
    r <- windows_WaitForSingleObject (sampleReadyEvent c) INFINITE ;;
    match snd r with
    | Some e => ret (Some (Return (Some e)))
    | None =>
      let evt := fst r in
      if negb (evt =? WAIT_OBJECT_0) then
        ret (Some (Return (Some (wait_failed evt))))
      else
        o <- writeOnRenderThread ;;
        match o with
        | Return None => loopOnRenderThread fuel'
        | _ => ret (Some o)
        end
    end
  end.

(** [c.err.TryStore(err)] *)
Definition err_TryStore (e : error) : M unit :=
  modify (fun c => set_err (TryStore (err c) e) c).

(** Lines 211-227: the body of the render goroutine.  [Some (Return None)]
    is the goroutine's end, [Some (Panic _)] a crash, [None] a loop still
    running. *)
Definition renderThread (fuel : nat) : M (option outcome) :=
  e <- _CoInitializeEx _COINIT_MULTITHREADED ;;
  match e with
  | Some _ =>
    _ <- client_Stop ;;
    err_TryStore e ;;
    ret (Some (Return None))
  | None =>
    r <- loopOnRenderThread fuel ;;
    match r with
    | None => ret None
    | Some (Return (Some e')) =>
      _ <- client_Stop ;;
      err_TryStore (Some e') ;;
      _CoUninitialize ;;
      ret (Some (Return None))
    | Some o =>
      _CoUninitialize ;;
      ret (Some o)
    end
  end.

(* ================================================================= *)
(** ** Control: [Suspend], [Resume], [Err] *)

(** [comThread.Run]: the caller hands [f] to the worker and waits until it
    has run; for the caller that is running [f]. *)
Definition comThread_Run {A : Type} (f : M A) : M A := f.

(** In both, [cerr] is nil unless the job assigns the client's error to
    it. *)
Definition Suspend : M error :=
  comThread_Run (
    emit MutexLock ;;
    defer (emit MutexUnlock) (
      check! client_Stop ;;
      ret None)).

Definition Resume : M error :=
  comThread_Run (
    emit MutexLock ;;
    defer (emit MutexUnlock) (
      check! client_Start ;;
      ret None)).

Definition Err (c : wasapiContext) : error := Load (err c).

(* ================================================================= *)
(** ** Construction: [newWASAPIContext] *)

(** The context literal of [newWASAPIContext]: every field not named there
    has its zero value. *)
Definition new_context (sampleRate channelCount mux : Z) : wasapiContext :=
  {| sampleRate := sampleRate;
     channelCount := channelCount;
     mux := mux;
     err := atomicError_zero;
     sampleReadyEvent := 0;
     client := 0;
     mixFormat := None;
     bufferFrames := 0;
     renderClient := 0;
     buf := nil_slice |}.

(** What the caller of [newCOMThread] gets: the worker's [CoInitializeEx]
    decides (the two goroutines are followed step by step in
    [COMThread] below). *)
Definition newCOMThread (P : Platform) (log : list Call)
  : error * list Call :=
  let h := log ++ [CoInitializeEx _COINIT_MULTITHREADED] in
  (r_err (P h), h).

Definition newWASAPIContext (sampleRate channelCount mux : Z)
  (P : Platform) (log : list Call)
  : (option wasapiContext * error) * list Call :=
  let (e, h) := newCOMThread P log in
  match e with
  | Some _ => ((None, e), h)
  | None =>
    let c := new_context sampleRate channelCount mux in
    let (cerr, s) := comThread_Run initOnCOMThread P (mkState c h) in
    match cerr with
    | Some _ => ((None, cerr), st_log s)
    | None => ((Some (st_ctx s), None), st_log s)
    end
  end.

(* ================================================================= *)
(** ** The apartment worker: [newCOMThread], goroutine by goroutine *)

Module COMThread.

(** Where the caller of [newCOMThread] stands. *)
Inductive caller_pc : Type :=
| c_go                        (* channels made, about to start the goroutine *)
| c_recv                      (* line 52: [<-errCh] *)
| c_returned (e : error).     (* [return nil, err] or [return &comThread{..}, nil] *)

(** Where the worker goroutine stands. *)
Inductive worker_pc : Type :=
| w_unborn
| w_coinit                    (* line 40, OS thread locked *)
| w_send (e : errval)         (* line 41: [errCh <- err] *)
| w_close                     (* line 45: [close(errCh)] *)
| w_range                     (* line 47: [for f := range funcCh] *)
| w_exited.                   (* deferred calls done, goroutine over *)

Record sys : Type := mkSys {
  caller : caller_pc;
  worker : worker_pc;
  errCh_closed : bool;
  funcCh_closed : bool
}.

Definition init : sys := mkSys c_go w_unborn false false.

Section Steps.

(** What the worker's [_CoInitializeEx] returns. *)
Variable coinit : error.

(** The caller's moves.  Both channels are unbuffered: a receive on
    [errCh] completes together with the worker's pending send, or
    yields the zero value once the channel is closed. *)
Definition caller_steps (s : sys) : list sys :=
  match caller s with
  | c_go =>
    match worker s with
    | w_unborn => [mkSys c_recv w_coinit (errCh_closed s) (funcCh_closed s)]
    | _ => []
    end
  | c_recv =>
    match worker s with
    | w_send e =>
      [mkSys (c_returned (Some e)) w_close (errCh_closed s) (funcCh_closed s)]
    | _ =>
      if errCh_closed s
      then [mkSys (c_returned None) (worker s) true (funcCh_closed s)]
      else []
    end
  | c_returned _ => []
  end.

(** The worker's moves.  After the send of line 41 there is no
    [return]: control goes on to lines 43-47.  The [range] ends only
    when [funcCh] is closed, and a job arrives only through [Run] on
    the [*comThread] that a successful construction returns; the
    source closes [funcCh] nowhere. *)
Definition worker_steps (s : sys) : list sys :=
  match worker s with
  | w_unborn => []
  | w_coinit =>
    match coinit with
    | Some e => [mkSys (caller s) (w_send e) (errCh_closed s) (funcCh_closed s)]
    | None => [mkSys (caller s) w_close (errCh_closed s) (funcCh_closed s)]
    end
  | w_send _ => []
  | w_close => [mkSys (caller s) w_range true (funcCh_closed s)]
  | w_range =>
    if funcCh_closed s
    then [mkSys (caller s) w_exited (errCh_closed s) true]
    else []
  | w_exited => []
  end.

Definition steps (s : sys) : list sys := caller_steps s ++ worker_steps s.

Definition step (s s' : sys) : Prop := In s' (steps s).

Definition terminal (s : sys) : Prop := steps s = [].

Inductive reach : sys -> Prop :=
| reach_init : reach init
| reach_step : forall s s', reach s -> step s s' -> reach s'.

(** A scheduler that always takes the first enabled move. *)
Fixpoint run (fuel : nat) (s : sys) : sys :=
  match fuel with
  | O => s
  | S fuel' =>
    match steps s with
    | [] => s
    | s' :: _ => run fuel' s'
    end
  end.

End Steps.

(** The result [newCOMThread] hands to its caller, if it has returned. *)
Definition returned (s : sys) : option error :=
  match caller s with
  | c_returned e => Some e
  | _ => None
  end.

(** The worker goroutine exists and has not finished. *)
Definition worker_alive (s : sys) : bool :=
  match worker s with
  | w_unborn | w_exited => false
  | _ => true
  end.

(** The states a failing [CoInitializeEx] leads through. *)
Definition failing_states (e : errval) : list sys :=
  [ init;
    mkSys c_recv w_coinit false false;
    mkSys c_recv (w_send e) false false;
    mkSys (c_returned (Some e)) w_close false false;
    mkSys (c_returned (Some e)) w_range true false ].

(** The states a successful [CoInitializeEx] leads through. *)
Definition succeeding_states : list sys :=
  [ init;
    mkSys c_recv w_coinit false false;
    mkSys c_recv w_close false false;
    mkSys c_recv w_range true false;
    mkSys (c_returned None) w_range true false ].

End COMThread.

(* ================================================================= *)
(** ** Platforms to run the driver against *)

Definition ok_response : Response :=
  {| r_ptr := 1; r_u32 := 0; r_closest := None; r_err := None |}.

(** How many padding queries a history holds. *)
Fixpoint padding_queries (h : list Call) : nat :=
  match h with
  | [] => O
  | GetCurrentPadding :: h' => S (padding_queries h')
  | _ :: h' => padding_queries h'
  end.

(** A platform on which every call succeeds: the hardware buffer holds
    [capacity] frames, and the k-th padding query answers the k-th entry of
    [paddings] (0 once they are used up). *)
Definition scripted (capacity : Z) (paddings : list Z) : Platform :=
  fun h =>
    match last h CoUninitialize with
    | GetBufferSize =>
      {| r_ptr := 0; r_u32 := capacity; r_closest := None; r_err := None |}
    | GetCurrentPadding =>
      {| r_ptr := 0;
         r_u32 := nth (pred (padding_queries h)) paddings 0;
         r_closest := None;
         r_err := None |}
    | _ => ok_response
    end.

(** The same, except that the calls picked by [fails] return [e]. *)
Definition failing (fails : Call -> bool) (e : errval) (P : Platform) : Platform :=
  fun h =>
    if fails (last h CoUninitialize)
    then {| r_ptr := 0; r_u32 := 0; r_closest := None; r_err := Some e |}
    else P h.

(** A platform that answers the exact-format query with a closest
    alternative (the query's own format with the channel count [n]). *)
Definition offers_closest (n : Z) (P : Platform) : Platform :=
  fun h =>
    match last h CoUninitialize with
    | IsFormatSupported _ f =>
      {| r_ptr := 0; r_u32 := 0;
         r_closest := Some (mkFormat (wFormatTag f) n (nSamplesPerSec f)
                              (nAvgBytesPerSec f) (nBlockAlign f)
                              (wBitsPerSample f) (cbSize f) (Samples f)
                              (dwChannelMask f) (SubFormat f));
         r_err := None |}
    | _ => P h
    end.

Definition is_CoInitializeEx (c : Call) : bool :=
  match c with CoInitializeEx _ => true | _ => false end.
Definition is_ClientStop (c : Call) : bool :=
  match c with ClientStop => true | _ => false end.
Definition is_ClientStart (c : Call) : bool :=
  match c with ClientStart => true | _ => false end.
Definition is_ReleaseBuffer (c : Call) : bool :=
  match c with ReleaseBuffer _ _ => true | _ => false end.

(* ================================================================= *)
(** ** Reading a log *)

(** The frame counts of the write-pointer requests. *)
Fixpoint requested (l : list Call) : list Z :=
  match l with
  | [] => []
  | GetBuffer n :: l' => n :: requested l'
  | _ :: l' => requested l'
  end.

(** The sample counts pulled from the mixing engine. *)
Fixpoint pulled (l : list Call) : list Z :=
  match l with
  | [] => []
  | ReadFloat32s n :: l' => n :: pulled l'
  | _ :: l' => pulled l'
  end.

(** The frame counts and flags committed to the hardware. *)
Fixpoint committed (l : list Call) : list (Z * Z) :=
  match l with
  | [] => []
  | ReleaseBuffer n fl :: l' => (n, fl) :: committed l'
  | _ :: l' => committed l'
  end.

(** The sizes of the scratch buffers allocated. *)
Fixpoint allocated (l : list Call) : list Z :=
  match l with
  | [] => []
  | MakeFloat32s n :: l' => n :: allocated l'
  | _ :: l' => allocated l'
  end.

(** The hardware calls of setup: device activation, the format query,
    client initialization and the start of the client. *)
Definition is_hardware_call (c : Call) : bool :=
  match c with
  | Activate | IsFormatSupported _ _ | Initialize _ _ _ | ClientStart => true
  | _ => false
  end.

Definition hardware_calls (l : list Call) : list Call := filter is_hardware_call l.

Definition is_Initialize (c : Call) : bool :=
  match c with Initialize _ _ _ => true | _ => false end.

(** A run of a method from context [c] and log [log]. *)
Definition run {A : Type} (m : M A) (P : Platform) (c : wasapiContext)
  (log : list Call) : A * state := m P (mkState c log).

(** The calls made after [log]. *)
Definition later_calls (log l : list Call) : list Call :=
  skipn (List.length log) l.

(** The calls a run added to the log. *)
Definition new_calls (log : list Call) (s : state) : list Call :=
  later_calls log (st_log s).

(** A construction request is rejected before any hardware call: it fails
    and the log holds none of the hardware calls of setup. *)
Definition rejected_before_hardware (sampleRate channelCount mux : Z)
  (P : Platform) : Prop :=
  let r := newWASAPIContext sampleRate channelCount mux P [] in
  fst (fst r) = None /\ snd (fst r) <> None /\ hardware_calls (snd r) = [].

(* ================================================================= *)
(** ** Quantities of a fill cycle *)

(** The frame count a cycle works with (line 257), and the sample count it
    needs room for (line 269). *)
Definition cycle_frames (P : Platform) (c : wasapiContext) (log : list Call) : Z :=
  uint32 (bufferFrames c
          - uint32 (r_u32 (P (log ++ [MutexLock; GetCurrentPadding])))).

Definition cycle_buflen (P : Platform) (c : wasapiContext) (log : list Call) : Z :=
  int_mul (int (cycle_frames P c log)) (channelCount c).

(** The context with its scratch buffer blanked out: two contexts with the
    same image differ in [buf] at most. *)
Definition but_buf (c : wasapiContext) : wasapiContext := set_buf nil_slice c.

(* ================================================================= *)
(** ** Scenarios *)

(** A 1024-frame hardware buffer whose padding is 0, 512 and 1024 at three
    successive wake-ups, with a mono and a stereo context. *)
Definition paddings_platform : Platform := scripted 1024 [0; 512; 1024].
Definition mono_1024 : wasapiContext :=
  set_bufferFrames 1024 (new_context 48000 1 7).
Definition stereo_1024 : wasapiContext :=
  set_bufferFrames 1024 (new_context 48000 2 7).

(** A 200-frame hardware buffer (mono) whose padding makes four successive
    cycles work with 100, 50, 200 and 10 frames. *)
Definition sizes_platform : Platform := scripted 200 [100; 150; 0; 190].
Definition sizes_context : wasapiContext :=
  set_bufferFrames 200 (new_context 48000 1 7).

Definition cap_after (k : nat) : Z :=
  cap (buf (st_ctx (snd (run (loopOnRenderThread k) sizes_platform sizes_context [])))).

(* ================================================================= *)
(** ** The worker's loop against [Run] (lines 47-49 and 61-68) *)

Module RunModel.

(** Where a call of [Run] stands; each call has a number of its own. *)
Inductive submitter_pc : Type :=
| r_send                      (* line 63: [c.funcCh <- func() {...}] *)
| r_wait                      (* line 67: [<-ch] *)
| r_returned.

(** Where the worker stands in [for f := range funcCh { f() }]; the
    function received is the wrapper of line 63, which calls [f] and then
    closes the call's channel [ch]. *)
Inductive worker_pc : Type :=
| w_range                     (* line 47: receiving from [funcCh] *)
| w_call (i : nat)            (* line 64: about to run the job of call [i] *)
| w_close (i : nat).          (* line 65: about to [close(ch)] of call [i] *)

Record sys : Type := mkSys {
  subs : nat -> submitter_pc;
  worker : worker_pc;
  closed : nat -> bool;         (* the channel [ch] of call [i] is closed *)
  ran : list nat                (* the jobs run so far, oldest first *)
}.

Definition init : sys := mkSys (fun _ => r_send) w_range (fun _ => false) [].

Definition upd {A : Type} (f : nat -> A) (i : nat) (v : A) : nat -> A :=
  fun j => if Nat.eqb j i then v else f j.

(** The moves.  [funcCh] is unbuffered, so the send of call [i] and the
    worker's receive happen together. *)
Inductive move : Type :=
| Handover (i : nat)
| RunJob
| CloseDone
| Wake (i : nat).

Definition step (m : move) (s : sys) : option sys :=
  match m with
  | Handover i =>
    match worker s, subs s i with
    | w_range, r_send =>
      Some (mkSys (upd (subs s) i r_wait) (w_call i) (closed s) (ran s))
    | _, _ => None
    end
  | RunJob =>
    match worker s with
    | w_call i => Some (mkSys (subs s) (w_close i) (closed s) (ran s ++ [i]))
    | _ => None
    end
  | CloseDone =>
    match worker s with
    | w_close i => Some (mkSys (subs s) w_range (upd (closed s) i true) (ran s))
    | _ => None
    end
  | Wake i =>
    match subs s i with
    | r_wait =>
      if closed s i
      then Some (mkSys (upd (subs s) i r_returned) (worker s) (closed s) (ran s))
      else None
    | _ => None
    end
  end.

(** Follow a schedule; [None] when a move of it is not enabled. *)
Fixpoint exec (sched : list move) (s : sys) : option sys :=
  match sched with
  | [] => Some s
  | m :: sched' =>
    match step m s with
    | Some s' => exec sched' s'
    | None => None
    end
  end.

(** The call the worker is busy with, if any. *)
Definition busy_with (s : sys) : option nat :=
  match worker s with
  | w_range => None
  | w_call i | w_close i => Some i
  end.

(** What holds in every state the moves lead to. *)
Definition invariant (s : sys) : Prop :=
  NoDup (ran s) /\
  (forall i, subs s i = r_send ->
     ~ In i (ran s) /\ closed s i = false /\ busy_with s <> Some i) /\
  (forall i, worker s = w_call i ->
     subs s i = r_wait /\ ~ In i (ran s) /\ closed s i = false) /\
  (forall i, worker s = w_close i ->
     subs s i = r_wait /\ In i (ran s) /\ closed s i = false) /\
  (forall i, closed s i = true -> In i (ran s)) /\
  (forall i, subs s i = r_returned -> closed s i = true) /\
  (forall i, In i (ran s) -> closed s i = true \/ worker s = w_close i).

End RunModel.

(* ================================================================= *)
(** ** More readings of a log *)

Definition is_GoRenderThread (c : Call) : bool :=
  match c with GoRenderThread => true | _ => false end.
Definition is_MutexLock (c : Call) : bool :=
  match c with MutexLock => true | _ => false end.
Definition is_EnumeratorRelease (c : Call) : bool :=
  match c with EnumeratorRelease => true | _ => false end.
Definition is_DeviceRelease (c : Call) : bool :=
  match c with DeviceRelease => true | _ => false end.

Definition count (f : Call -> bool) (l : list Call) : nat :=
  List.length (filter f l).

(** The handles and timeouts of the waits. *)
Fixpoint waits (l : list Call) : list (Z * Z) :=
  match l with
  | [] => []
  | WaitForSingleObject h t :: l' => (h, t) :: waits l'
  | _ :: l' => waits l'
  end.

(** The sample counts copied into the hardware buffer. *)
Fixpoint copied (l : list Call) : list Z :=
  match l with
  | [] => []
  | CopyToDevice _ n :: l' => n :: copied l'
  | _ :: l' => copied l'
  end.

(** The calls of the fill cycle's critical section. *)
Definition needs_mutex (c : Call) : bool :=
  match c with
  | GetCurrentPadding | GetBuffer _ | MakeFloat32s _ | ReadFloat32s _
  | CopyToDevice _ _ | ReleaseBuffer _ _ => true
  | _ => false
  end.

(** Read a log with the mutex [held] or not at its start: [None] when the
    mutex is taken while held or released while free, when a call of the
    critical section is made without it, or when a wait is made with it;
    otherwise whether it is held at the end. *)
Fixpoint mutex_ok (held : bool) (l : list Call) : option bool :=
  match l with
  | [] => Some held
  | MutexLock :: l' => if held then None else mutex_ok true l'
  | MutexUnlock :: l' => if held then mutex_ok false l' else None
  | WaitForSingleObject _ _ :: l' => if held then None else mutex_ok held l'
  | c :: l' => if needs_mutex c && negb held then None else mutex_ok held l'
  end.

(** The calls the render loop makes: waits and fill cycles. *)
Definition is_loop_call (c : Call) : bool :=
  match c with
  | WaitForSingleObject _ _ | MutexLock | MutexUnlock => true
  | c => needs_mutex c
  end.

(** The calls of a cycle that fills [frames] frames with [n] samples at
    [dst], after allocating ([grown]) or not. *)
Definition fill_calls (frames n dst : Z) (grown : bool) : list Call :=
  [GetBuffer frames]
    ++ (if grown then [MakeFloat32s n] else [])
    ++ [ReadFloat32s n; CopyToDevice dst n; ReleaseBuffer frames 0].

(** A log of setup without the deferred releases, which come last: the
    history at the moment setup returned. *)
Definition before_releases (l : list Call) : list Call :=
  filter (fun c => negb (is_EnumeratorRelease c || is_DeviceRelease c)) l.

(** The calls of a setup that goes through, for candidate format [f] and
    readiness event [ev]. *)
Definition setup_calls (f : _WAVEFORMATEXTENSIBLE) (ev : Z) : list Call :=
  [CoCreateInstance; GetDefaultAudioEndPoint; Activate;
   SetClientProperties 0 _AudioCategory_Other;
   IsFormatSupported _AUDCLNT_SHAREMODE_SHARED f;
   Initialize _AUDCLNT_SHAREMODE_SHARED
     (Z.lor _AUDCLNT_STREAMFLAGS_EVENTCALLBACK _AUDCLNT_STREAMFLAGS_NOPERSIST)
     (Some f);
   GetBufferSize; GetService; CreateEventEx; SetEventHandle ev; ClientStart;
   GoRenderThread; DeviceRelease; EnumeratorRelease].

(* ================================================================= *)
(** * Properties *)

(** ** Machine integers *)

Lemma uint32_small : forall x, is_uint32 x -> uint32 x = x.
Proof. intros x H. unfold uint32. apply Z.mod_small. exact H. Qed.

Lemma uint32_range : forall x, is_uint32 (uint32 x).
Proof. intros x. unfold is_uint32, uint32. apply Z.mod_pos_bound. lia. Qed.

Lemma int_small : forall x, is_int x -> int x = x.
Proof.
  intros x H. unfold is_int in H. unfold int.
  rewrite Z.mod_small; lia.
Qed.

(** Truncating a wrapped [int] to 32 bits forgets the wrap. *)
Lemma uint32_int : forall x, uint32 (int x) = uint32 x.
Proof.
  intros x. unfold uint32, int.
  pose proof (Z.div_mod (x + 2 ^ 63) (2 ^ 64) ltac:(lia)) as E.
  replace ((x + 2 ^ 63) mod 2 ^ 64 - 2 ^ 63)
    with (x + (- ((x + 2 ^ 63) / 2 ^ 64) * 2 ^ 32) * 2 ^ 32) by lia.
  apply Z.mod_add. lia.
Qed.

(** ** Logs *)

Lemma later_calls_app : forall log evs, later_calls log (log ++ evs) = evs.
Proof.
  intros log evs. unfold later_calls.
  induction log as [|a log IH]; simpl; [reflexivity | exact IH].
Qed.

Lemma new_calls_app : forall log evs c,
  new_calls log (mkState c (log ++ evs)) = evs.
Proof.
  intros log evs c. unfold new_calls. apply later_calls_app.
Qed.

(** Unfold a method down to the platform's answers. *)
Ltac unfold_drv :=
  unfold run, writeOnRenderThread, initOnCOMThread, Suspend, Resume,
    comThread_Run, grow_buf, or_panic, defer, check, check_val, check_out,
    check_val_out, err_TryStore,
    _CoInitializeEx, _CoUninitialize, _CoCreateInstance,
    enumerator_GetDefaultAudioEndPoint, device_Activate,
    client_SetClientProperties, client_IsFormatSupported, client_Initialize,
    client_GetBufferSize, client_GetService, windows_CreateEventEx,
    client_SetEventHandle, client_Start, client_Stop,
    windows_WaitForSingleObject, client_GetCurrentPadding,
    renderClient_GetBuffer, renderClient_ReleaseBuffer, mux_ReadFloat32s,
    ptr_call, u32_call, err_call, emit, call, get, modify, bind, ret;
  cbn [fst snd st_ctx st_log].

(** Split on the platform's answers and on the driver's own tests, from the
    outermost one inwards. *)
Ltac case_drv :=
  repeat (cbn [fst snd st_ctx st_log negb];
    match goal with
    | |- context [match r_err ?x with _ => _ end] => destruct (r_err x) eqn:?
    | |- context [match r_closest ?x with _ => _ end] =>
      destruct (r_closest x) eqn:?
    | |- context [if Z.leb ?a ?b then _ else _] => destruct (Z.leb a b) eqn:?
    | |- context [if Z.ltb ?a ?b then _ else _] => destruct (Z.ltb a b) eqn:?
    | |- context [if negb ?a then _ else _] => destruct a eqn:?
    | |- context [match make ?n with _ => _ end] => destruct (make n) eqn:?
    | |- context [match reslice ?b ?n with _ => _ end] =>
      destruct (reslice b n) eqn:?
    end);
  cbn [fst snd st_ctx st_log negb].

(** Bring a log built call by call into the shape [log ++ [c1; ...; cn]]. *)
Ltac flatten_log := repeat rewrite <- app_assoc in *; cbn [app] in *.

(** ** The candidate format (lines 147-167) *)

Lemma candidateFormat_set_client : forall v c,
  candidateFormat (set_client v c) = candidateFormat c.
Proof. reflexivity. Qed.

(** C9.  For channel counts 1 and 2 the candidate descriptor is the
    documented one: extensible IEEE-float format with 32 bits per sample,
    block alignment of channel count times 4 bytes, an average byte rate of
    sample rate times block alignment (held in the descriptor's 32-bit
    field, hence exact whenever that product fits 32 bits), and the channel
    mask front-center for mono and front-left|front-right for stereo. *)
Theorem candidate_format_formula : forall c,
  channelCount c = 1 \/ channelCount c = 2 ->
  let f := candidateFormat c in
  wFormatTag f = _WAVE_FORMAT_EXTENSIBLE /\
  SubFormat f = _KSDATAFORMAT_SUBTYPE_IEEE_FLOAT /\
  wBitsPerSample f = 32 /\
  Samples f = 32 /\
  nChannels f = channelCount c /\
  nBlockAlign f = channelCount c * 4 /\
  nSamplesPerSec f = uint32 (sampleRate c) /\
  nAvgBytesPerSec f = uint32 (sampleRate c * nBlockAlign f) /\
  (is_uint32 (sampleRate c * nBlockAlign f) ->
   nAvgBytesPerSec f = sampleRate c * nBlockAlign f) /\
  (channelCount c = 1 -> dwChannelMask f = _SPEAKER_FRONT_CENTER) /\
  (channelCount c = 2 ->
   dwChannelMask f = Z.lor _SPEAKER_FRONT_LEFT _SPEAKER_FRONT_RIGHT).
Proof.
  intros c Hch f.
  assert (Hba : candidate_nBlockAlign c = channelCount c * 4).
  { unfold candidate_nBlockAlign. destruct Hch as [-> | ->]; reflexivity. }
  assert (Hba16 : nBlockAlign f = channelCount c * 4).
  { subst f. cbn [candidateFormat nBlockAlign]. rewrite Hba.
    destruct Hch as [-> | ->]; reflexivity. }
  assert (Havg : nAvgBytesPerSec f = uint32 (sampleRate c * nBlockAlign f)).
  { rewrite Hba16. subst f. cbn [candidateFormat nAvgBytesPerSec].
    rewrite Hba. unfold int_mul. apply uint32_int. }
  repeat split; try reflexivity; try assumption.
  - subst f. cbn [candidateFormat nChannels].
    destruct Hch as [-> | ->]; reflexivity.
  - intros Hfit. rewrite Havg. apply uint32_small. exact Hfit.
  - intros H1. subst f. cbn [candidateFormat dwChannelMask].
    unfold candidate_channelMask. rewrite H1. reflexivity.
  - intros H2. subst f. cbn [candidateFormat dwChannelMask].
    unfold candidate_channelMask. rewrite H2. reflexivity.
Qed.

Lemma candidate_format_formula_witness :
  let c := new_context 48000 2 7 in
  (channelCount c = 1 \/ channelCount c = 2) /\
  nBlockAlign (candidateFormat c) = 8 /\
  nAvgBytesPerSec (candidateFormat c) = 384000 /\
  dwChannelMask (candidateFormat c) = 3.
Proof.
  intros c.
  assert (H : channelCount c = 1 \/ channelCount c = 2) by (right; reflexivity).
  split; [exact H|].
  pose proof (candidate_format_formula c H) as T.
  cbv zeta in T.
  destruct T as (_ & _ & _ & _ & _ & Hba & _ & _ & Havg & _ & Hmask).
  split; [exact Hba|].
  split; [apply Havg; unfold is_uint32; rewrite Hba; simpl; lia|].
  exact (Hmask eq_refl).
Defined.

(** ** What a fill cycle and the render loop leave alone *)

Lemma but_buf_fields : forall c c',
  but_buf c' = but_buf c ->
  c' = set_buf (buf c') c /\
  sampleRate c' = sampleRate c /\
  channelCount c' = channelCount c /\
  mux c' = mux c /\
  err c' = err c /\
  sampleReadyEvent c' = sampleReadyEvent c /\
  client c' = client c /\
  mixFormat c' = mixFormat c /\
  bufferFrames c' = bufferFrames c /\
  renderClient c' = renderClient c.
Proof.
  intros c c' H.
  destruct c as [sr ch mx er ev cl mf bf rc b].
  destruct c' as [sr' ch' mx' er' ev' cl' mf' bf' rc' b'].
  unfold but_buf, set_buf in H. cbn in H. inversion H; subst.
  cbn. repeat split; reflexivity.
Qed.

Lemma write_but_buf : forall P s,
  but_buf (st_ctx (snd (writeOnRenderThread P s))) = but_buf (st_ctx s).
Proof.
  intros P [c log]. unfold_drv. case_drv; reflexivity.
Qed.

Lemma loop_but_buf : forall fuel P s,
  but_buf (st_ctx (snd (loopOnRenderThread fuel P s))) = but_buf (st_ctx s).
Proof.
  induction fuel as [|fuel IH]; intros P s; [reflexivity|].
  cbn [loopOnRenderThread].
  unfold windows_WaitForSingleObject, u32_call, call, get, bind, ret.
  case_drv; try reflexivity.
  match goal with
  | |- context [writeOnRenderThread P ?s1] =>
    pose proof (write_but_buf P s1) as Hw;
    destruct (writeOnRenderThread P s1) as [o s2]
  end.
  cbn [fst snd st_ctx] in Hw.
  destruct o as [[e|]|msg]; cbn [fst snd]; try exact Hw.
  rewrite IH. exact Hw.
Qed.

(** C10.  Whatever the platform answers and however the cycle ends, a fill
    cycle leaves every field of the context but [buf] as it was: sample
    rate, channel count, mixing engine, error cell, readiness event,
    client, mix format, buffer capacity and render client. *)
Theorem fill_cycle_frame : forall P c log,
  let c' := st_ctx (snd (run writeOnRenderThread P c log)) in
  c' = set_buf (buf c') c /\
  sampleRate c' = sampleRate c /\
  channelCount c' = channelCount c /\
  mux c' = mux c /\
  err c' = err c /\
  sampleReadyEvent c' = sampleReadyEvent c /\
  client c' = client c /\
  mixFormat c' = mixFormat c /\
  bufferFrames c' = bufferFrames c /\
  renderClient c' = renderClient c.
Proof.
  intros P c log c'. apply but_buf_fields.
  subst c'. unfold run. apply (write_but_buf P (mkState c log)).
Qed.

(** ** The error cell *)

Lemma TryStore_cases : forall a e,
  TryStore a (Some e) = a \/ (a = None /\ TryStore a (Some e) = Some e).
Proof. intros [e0|] e; [left | right]; auto. Qed.

Lemma TryStore_sequence : forall es a,
  fold_left TryStore (map Some es) a =
  match a with
  | Some _ => a
  | None => hd_error es
  end.
Proof.
  induction es as [|e es IH]; intros a; cbn [map fold_left].
  - destruct a; reflexivity.
  - rewrite IH. destruct a; reflexivity.
Qed.

Lemma init_ctx_err : forall P s,
  err (st_ctx (snd (initOnCOMThread P s))) = err (st_ctx s).
Proof.
  intros P [c log]. unfold_drv. case_drv; reflexivity.
Qed.

(** The render goroutine records a failure in an empty cell and leaves a
    set cell as it is. *)
Lemma renderThread_err : forall fuel P s,
  let a := err (st_ctx s) in
  let a' := err (st_ctx (snd (renderThread fuel P s))) in
  a' = a \/ (a = None /\ exists e, a' = Some e).
Proof.
  intros fuel P s. cbv zeta.
  unfold renderThread, _CoInitializeEx, _CoUninitialize, client_Stop,
    err_TryStore, err_call, emit, call, modify, bind, ret.
  cbn [fst snd st_ctx st_log].
  destruct (r_err (P (st_log s ++ [CoInitializeEx _COINIT_MULTITHREADED])))
    as [e0|] eqn:E0; cbn [fst snd st_ctx st_log err set_err].
  - destruct (TryStore_cases (err (st_ctx s)) e0) as [H | [H1 H2]];
      [left; exact H | right; split; [exact H1 | exists e0; exact H2]].
  - match goal with
    | |- context [loopOnRenderThread fuel P ?s1] =>
      pose proof (loop_but_buf fuel P s1) as Hl;
      destruct (loopOnRenderThread fuel P s1) as [r s2]
    end.
    cbn [fst snd st_ctx] in Hl.
    apply but_buf_fields in Hl. destruct Hl as (_ & _ & _ & _ & Herr & _).
    destruct r as [[[e|]|msg]|]; cbn [fst snd st_ctx st_log err set_err];
      try (left; exact Herr).
    rewrite Herr.
    destruct (TryStore_cases (err (st_ctx s)) e) as [H | [H1 H2]];
      [left; exact H | right; split; [exact H1 | exists e; exact H2]].
Qed.

(** C8.  [Suspend] and [Resume] hand the result of the client's stop and
    start straight back to the caller and leave the whole context, the
    error cell included, as it was.  Setup, the fill cycle and the render
    loop do not write the cell either; only the render goroutine does, and
    only by recording a failure in a cell that was empty. *)
Theorem suspend_resume_return_and_frame : forall P c log,
  let rs := run Suspend P c log in
  let rr := run Resume P c log in
  fst rs = r_err (P (log ++ [MutexLock; ClientStop])) /\
  st_ctx (snd rs) = c /\
  fst rr = r_err (P (log ++ [MutexLock; ClientStart])) /\
  st_ctx (snd rr) = c /\
  err (st_ctx (snd (run initOnCOMThread P c log))) = err c /\
  err (st_ctx (snd (run writeOnRenderThread P c log))) = err c /\
  (forall fuel,
     err (st_ctx (snd (run (loopOnRenderThread fuel) P c log))) = err c) /\
  (forall fuel,
     let a' := err (st_ctx (snd (run (renderThread fuel) P c log))) in
     a' = err c \/ (err c = None /\ exists e, a' = Some e)).
Proof.
  intros P c log rs rr. subst rs rr.
  split; [unfold_drv; flatten_log;
          destruct (r_err (P (log ++ [MutexLock; ClientStop]))); reflexivity|].
  split; [unfold_drv; case_drv; reflexivity|].
  split; [unfold_drv; flatten_log;
          destruct (r_err (P (log ++ [MutexLock; ClientStart]))); reflexivity|].
  split; [unfold_drv; case_drv; reflexivity|].
  split; [apply (init_ctx_err P (mkState c log))|].
  split.
  { pose proof (write_but_buf P (mkState c log)) as H.
    apply but_buf_fields in H. unfold run. tauto. }
  split.
  { intros fuel. pose proof (loop_but_buf fuel P (mkState c log)) as H.
    apply but_buf_fields in H. unfold run. tauto. }
  intros fuel. apply (renderThread_err fuel P (mkState c log)).
Qed.

(** Two render goroutines failing one after the other on the same context,
    the first on [ReleaseBuffer] with code 5, the second on its
    [CoInitializeEx] with code 9: each stops the client, and the cell keeps
    the first error. *)
Example two_render_failures :
  let P1 := failing is_ReleaseBuffer (SysErr 5) paddings_platform in
  let P2 := failing is_CoInitializeEx (SysErr 9) paddings_platform in
  let s1 := snd (run (renderThread 3) P1 mono_1024 []) in
  let s2 := snd (run (renderThread 3) P2 (st_ctx s1) (st_log s1)) in
  Err mono_1024 = None /\
  Err (st_ctx s1) = Some (SysErr 5) /\
  Err (st_ctx s2) = Some (SysErr 5) /\
  List.length (filter is_ClientStop (st_log s1)) = 1%nat /\
  List.length (filter is_ClientStop (st_log s2)) = 2%nat.
Proof. vm_compute. repeat split; reflexivity. Qed.

(** C6.  The error cell starts empty, a store into a set cell changes
    nothing, a store of an error never yields an empty cell, and after any
    sequence of stores the cell holds the first error stored; [Err]
    returns it, or nil when nothing was stored.  The render goroutine
    leaves a cell that is already set untouched, whatever it fails with. *)
Theorem error_cell_first_write_wins :
  (forall sr ch mx, Err (new_context sr ch mx) = None) /\
  (forall e0 e, TryStore (Some e0) e = Some e0) /\
  (forall a e, TryStore a (Some e) <> None) /\
  (forall e1 e2,
     Load (TryStore (TryStore atomicError_zero (Some e1)) (Some e2)) = Some e1) /\
  (forall c es,
     Err (set_err (fold_left TryStore (map Some es) atomicError_zero) c)
     = hd_error es) /\
  (forall fuel P c log e0,
     Err (st_ctx (snd (run (renderThread fuel) P (set_err (Some e0) c) log)))
     = Some e0).
Proof.
  split; [reflexivity|].
  split; [reflexivity|].
  split; [intros [e0|] e; discriminate|].
  split; [reflexivity|].
  split.
  { intros c es. unfold Err, Load. cbn [err set_err].
    apply (TryStore_sequence es None). }
  intros fuel P c log e0.
  pose proof (renderThread_err fuel P (mkState (set_err (Some e0) c) log)) as H.
  cbv zeta in H. cbn [st_ctx err set_err] in H.
  unfold Err, Load, run.
  destruct H as [H | [H _]]; [exact H | discriminate].
Qed.

(** ** The scratch buffer *)

Lemma make_Some : forall n b, make n = Some b -> b = mkSlice n n /\ 0 <= n.
Proof.
  intros n b H. unfold make in H.
  destruct (n <? 0) eqn:E; [discriminate|].
  apply Z.ltb_ge in E. inversion H. split; [reflexivity | exact E].
Qed.

Lemma reslice_Some : forall s n b,
  reslice s n = Some b -> b = mkSlice n (sl_cap s) /\ 0 <= n <= sl_cap s.
Proof.
  intros s n b H. unfold reslice in H.
  destruct ((0 <=? n) && (n <=? sl_cap s)) eqn:E; [|discriminate].
  apply andb_true_iff in E. destruct E as [E1 E2].
  apply Z.leb_le in E1. apply Z.leb_le in E2.
  inversion H. split; [reflexivity | lia].
Qed.

Lemma make_None : forall n, make n = None -> n < 0.
Proof.
  intros n H. unfold make in H.
  destruct (n <? 0) eqn:E; [|discriminate]. apply Z.ltb_lt in E. exact E.
Qed.

Lemma reslice_None : forall s n,
  reslice s n = None -> n < 0 \/ sl_cap s < n.
Proof.
  intros s n H. unfold reslice in H.
  destruct (0 <=? n) eqn:E1; [|apply Z.leb_gt in E1; left; exact E1].
  destruct (n <=? sl_cap s) eqn:E2; [discriminate|].
  apply Z.leb_gt in E2. right. exact E2.
Qed.

Ltac slice_facts :=
  repeat match goal with
         | H : make _ = Some _ |- _ =>
           apply make_Some in H; destruct H as [? ?]; subst
         | H : reslice _ _ = Some _ |- _ =>
           apply reslice_Some in H; destruct H as [? ?]; subst
         | H : make _ = None |- _ => apply make_None in H
         | H : reslice _ _ = None |- _ => apply reslice_None in H
         | H : (_ <? _) = true |- _ => apply Z.ltb_lt in H
         | H : (_ <? _) = false |- _ => apply Z.ltb_ge in H
         | H : (_ <=? _) = true |- _ => apply Z.leb_le in H
         | H : (_ <=? _) = false |- _ => apply Z.leb_gt in H
         end.

Lemma write_scratch : forall P c log,
  let r := run writeOnRenderThread P c log in
  let c' := st_ctx (snd r) in
  let made := allocated (new_calls log (snd r)) in
  let need := cycle_buflen P c log in
  cap (buf c) <= cap (buf c') /\
  (made = [] /\ cap (buf c') = cap (buf c) \/
   made = [need] /\ cap (buf c) < need /\ cap (buf c') = need) /\
  (need <= cap (buf c) -> made = []) /\
  (fst r = Return None -> len (buf c') = 0 \/ buf c' = buf c).
Proof.
  intros P c log. cbv zeta. unfold cycle_buflen, cycle_frames.
  unfold_drv. case_drv; flatten_log; rewrite new_calls_app;
    cbn [allocated buf set_buf cap len sl_cap sl_len st_ctx snd fst];
    slice_facts; cbn [cap len sl_cap sl_len buf set_buf] in *.
  all: unfold cap, len in *; cbn [sl_cap sl_len] in *.
  all: try solve [intuition (auto; try lia; try discriminate)].
Qed.

Lemma write_cap : forall P s,
  cap (buf (st_ctx s)) <= cap (buf (st_ctx (snd (writeOnRenderThread P s)))).
Proof.
  intros P [c log]. apply (write_scratch P c log).
Qed.

Lemma loop_cap : forall fuel P s,
  cap (buf (st_ctx s)) <= cap (buf (st_ctx (snd (loopOnRenderThread fuel P s)))).
Proof.
  induction fuel as [|fuel IH]; intros P s; [cbn; lia|].
  cbn [loopOnRenderThread].
  unfold windows_WaitForSingleObject, u32_call, call, get, bind, ret.
  case_drv; try lia.
  match goal with
  | |- context [writeOnRenderThread P ?s1] =>
    pose proof (write_cap P s1) as Hw;
    destruct (writeOnRenderThread P s1) as [o s2]
  end.
  cbn [fst snd st_ctx] in Hw.
  destruct o as [[e|]|msg]; cbn [fst snd]; try exact Hw.
  specialize (IH P s2). lia.
Qed.

(** As long as the loop runs, the scratch buffer is empty between cycles. *)
Lemma loop_len : forall fuel P s,
  len (buf (st_ctx s)) = 0 ->
  fst (loopOnRenderThread fuel P s) = None ->
  len (buf (st_ctx (snd (loopOnRenderThread fuel P s)))) = 0.
Proof.
  induction fuel as [|fuel IH]; intros P s H0; [intros _; exact H0|].
  cbn [loopOnRenderThread].
  unfold windows_WaitForSingleObject, u32_call, call, get, bind, ret.
  case_drv; try discriminate.
  match goal with
  | |- context [writeOnRenderThread P ?s1] =>
    pose proof (write_scratch P (st_ctx s1) (st_log s1)) as Hw;
    unfold run in Hw; cbv zeta in Hw; cbn [st_ctx st_log] in Hw;
    destruct (writeOnRenderThread P s1) as [o s2]
  end.
  cbn [fst snd] in Hw. destruct Hw as (_ & _ & _ & Hw).
  destruct o as [[e|]|msg]; cbn [fst snd]; try discriminate.
  apply IH. destruct (Hw eq_refl) as [L | L]; [exact L | rewrite L; exact H0].
Qed.

(** A loop followed for [k + j] wake-ups is the loop followed for [k] of
    them and, if it is still running then, for [j] more. *)
Lemma loop_add : forall k j P s,
  loopOnRenderThread (k + j) P s =
  match loopOnRenderThread k P s with
  | (None, s1) => loopOnRenderThread j P s1
  | (Some o, s1) => (Some o, s1)
  end.
Proof.
  induction k as [|k IH]; intros j P s; [reflexivity|].
  cbn [loopOnRenderThread Nat.add].
  unfold windows_WaitForSingleObject, u32_call, call, get, bind, ret.
  case_drv; try reflexivity.
  match goal with
  | |- context [writeOnRenderThread P ?s1] =>
    destruct (writeOnRenderThread P s1) as [o s2]
  end.
  destruct o as [[e|]|msg]; try reflexivity.
  apply IH.
Qed.

(** C7.  A fill cycle never lowers the capacity of the scratch buffer.  It
    allocates at most once, exactly when the sample count it needs exceeds
    the capacity it has, and then the new capacity is that count; otherwise
    it keeps the allocation.  A cycle that completes leaves the buffer with
    length zero (a no-op cycle leaves it as it found it), so along a
    running render loop the buffer is empty between cycles.  Along the
    render loop the capacity after [k] wake-ups is at most the capacity
    after [k + j]. *)
Theorem scratch_capacity_grow_only : forall P c log,
  let r := run writeOnRenderThread P c log in
  let c' := st_ctx (snd r) in
  let made := allocated (new_calls log (snd r)) in
  let need := cycle_buflen P c log in
  cap (buf c) <= cap (buf c') /\
  (made = [] /\ cap (buf c') = cap (buf c) \/
   made = [need] /\ cap (buf c) < need /\ cap (buf c') = need) /\
  (need <= cap (buf c) -> made = []) /\
  (fst r = Return None -> len (buf c') = 0 \/ buf c' = buf c) /\
  (forall k,
     len (buf c) = 0 ->
     fst (run (loopOnRenderThread k) P c log) = None ->
     len (buf (st_ctx (snd (run (loopOnRenderThread k) P c log)))) = 0) /\
  (forall k j,
     cap (buf (st_ctx (snd (run (loopOnRenderThread k) P c log))))
     <= cap (buf (st_ctx (snd (run (loopOnRenderThread (k + j)) P c log))))).
Proof.
  intros P c log. cbv zeta.
  pose proof (write_scratch P c log) as H. cbv zeta in H.
  destruct H as (H1 & H2 & H3 & H4).
  split; [exact H1|]. split; [exact H2|]. split; [exact H3|].
  split; [exact H4|].
  split; [intros k; apply (loop_len k P (mkState c log))|].
  intros k j. unfold run. rewrite loop_add.
  destruct (loopOnRenderThread k P (mkState c log)) as [[o|] s1];
    cbn [snd]; [lia | apply loop_cap].
Qed.

(** Requested sizes 100, 50, 200, 10: two allocations, of 100 and of 200
    samples, and the capacity after each cycle is 100, 100, 200, 200. *)
Example scratch_sizes_100_50_200_10 :
  let s := snd (run (loopOnRenderThread 4) sizes_platform sizes_context []) in
  requested (st_log s) = [100; 50; 200; 10] /\
  pulled (st_log s) = [100; 50; 200; 10] /\
  allocated (st_log s) = [100; 200] /\
  map cap_after [0; 1; 2; 3; 4]%nat = [0; 100; 100; 200; 200] /\
  buf (st_ctx s) = mkSlice 0 200.
Proof. vm_compute. repeat split; reflexivity. Qed.

Lemma scratch_capacity_grow_only_witness :
  let r := run writeOnRenderThread sizes_platform sizes_context [] in
  cycle_buflen sizes_platform sizes_context [] = 100 /\
  allocated (new_calls [] (snd r)) = [100] /\
  buf (st_ctx (snd r)) = mkSlice 0 100 /\
  cap_after 2 <= cap_after 4.
Proof.
  pose proof (scratch_capacity_grow_only sizes_platform sizes_context []) as T.
  cbv zeta in T. destruct T as (_ & T2 & _ & T4 & _ & T5).
  cbv zeta.
  assert (N : cycle_buflen sizes_platform sizes_context [] = 100)
    by (vm_compute; reflexivity).
  split; [exact N|].
  rewrite N in T2.
  destruct T2 as [[_ T2] | [T2 [_ T2']]].
  - exfalso. vm_compute in T2. discriminate.
  - split; [exact T2|].
    split; [|exact (T5 2%nat 2%nat)].
    destruct (T4 ltac:(vm_compute; reflexivity)) as [L | L];
      vm_compute; reflexivity.
Defined.

(** ** The frame counts of a fill cycle *)

(** A cycle that finds the hardware buffer exactly full does nothing: it
    asks for the padding and returns nil. *)
Lemma fill_cycle_noop_when_full : forall P c log,
  let h1 := log ++ [MutexLock; GetCurrentPadding] in
  let r := run writeOnRenderThread P c log in
  is_uint32 (bufferFrames c) ->
  r_err (P h1) = None ->
  uint32 (r_u32 (P h1)) = bufferFrames c ->
  fst r = Return None /\
  new_calls log (snd r) = [MutexLock; GetCurrentPadding; MutexUnlock] /\
  st_ctx (snd r) = c.
Proof.
  intros P c log h1 r Hcap Herr Hpad. subst h1 r.
  unfold_drv. flatten_log. rewrite Herr, Hpad. cbn [fst snd st_ctx st_log].
  rewrite Z.sub_diag. change (uint32 0 <=? 0) with true.
  cbn [fst snd st_ctx st_log].
  flatten_log. rewrite new_calls_app. repeat split; reflexivity.
Qed.

(** C4.  With padding strictly below capacity, a fill cycle asks for a
    write pointer for exactly capacity - padding frames; once that pointer
    is granted it pulls exactly (capacity - padding) * channelCount samples
    from the mixing engine and commits exactly capacity - padding frames
    with no flags.  (If the pointer is refused, the cycle returns that
    error and neither pulls nor commits.) *)
Theorem fill_cycle_exact_frames : forall P c log,
  let h1 := log ++ [MutexLock; GetCurrentPadding] in
  let padding := uint32 (r_u32 (P h1)) in
  let frames := bufferFrames c - padding in
  let h2 := h1 ++ [GetBuffer frames] in
  let r := run writeOnRenderThread P c log in
  let calls := new_calls log (snd r) in
  is_uint32 (bufferFrames c) ->
  0 <= channelCount c < 2 ^ 31 ->
  r_err (P h1) = None ->
  padding < bufferFrames c ->
  requested calls = [frames] /\
  (r_err (P h2) = None ->
   pulled calls = [frames * channelCount c] /\
   committed calls = [(frames, 0)]) /\
  (r_err (P h2) <> None ->
   pulled calls = [] /\ committed calls = [] /\ fst r = Return (r_err (P h2))).
Proof.
  intros P c log h1 padding frames h2 r calls Hcap Hch Herr Hpad.
  assert (Hp : is_uint32 padding) by apply uint32_range.
  assert (Hf : uint32 frames = frames).
  { apply uint32_small. unfold is_uint32 in *. subst frames. lia. }
  assert (Hfpos : (frames <=? 0) = false).
  { apply Z.leb_gt. subst frames. lia. }
  assert (Hlen : int_mul (int frames) (channelCount c) = frames * channelCount c).
  { unfold int_mul. unfold is_uint32 in *.
    rewrite (int_small frames) by (unfold is_int; subst frames; lia).
    apply int_small. unfold is_int. subst frames. nia. }
  subst calls r h2 h1. unfold_drv. flatten_log.
  rewrite Herr. cbn [fst snd st_ctx st_log].
  fold padding. fold frames. rewrite Hf, Hfpos.
  cbn [fst snd st_ctx st_log]. flatten_log. rewrite Hlen.
  destruct (r_err (P (log ++ [MutexLock; GetCurrentPadding; GetBuffer frames])))
    as [e|] eqn:Eg.
  - cbn [fst snd st_ctx st_log]. flatten_log. rewrite new_calls_app.
    cbn [requested pulled committed].
    split; [reflexivity|]. split; [discriminate|].
    intros _. repeat split; reflexivity.
  - case_drv; flatten_log; rewrite new_calls_app;
      cbn [requested pulled committed buf set_buf len sl_len];
      slice_facts; cbn [len sl_len] in *.
    all: try (split; [reflexivity|]; split; [intros _; split; reflexivity|];
              intros Hne; exfalso; apply Hne; reflexivity).
    all: exfalso; unfold cap in *; cbn [buf set_buf sl_cap] in *; subst frames; nia.
Qed.

(** Capacity 1024 and paddings 0, 512, 1024: the cycles work with 1024, 512
    and 0 frames; the first two pull 1024 and 512 frames' worth of samples
    and the third pulls nothing. *)
Example fill_cycles_1024 :
  let r1 := run (loopOnRenderThread 3) paddings_platform mono_1024 [] in
  let r2 := run (loopOnRenderThread 3) paddings_platform stereo_1024 [] in
  fst r1 = None /\
  requested (st_log (snd r1)) = [1024; 512] /\
  pulled (st_log (snd r1)) = [1024; 512] /\
  committed (st_log (snd r1)) = [(1024, 0); (512, 0)] /\
  padding_queries (st_log (snd r1)) = 3%nat /\
  requested (st_log (snd r2)) = [1024; 512] /\
  pulled (st_log (snd r2)) = [2048; 1024] /\
  committed (st_log (snd r2)) = [(1024, 0); (512, 0)].
Proof. vm_compute. repeat split; reflexivity. Qed.

Lemma fill_cycle_exact_frames_witness :
  let P := scripted 1024 [512] in
  let c := stereo_1024 in
  let calls := new_calls [] (snd (run writeOnRenderThread P c [])) in
  is_uint32 (bufferFrames c) /\
  0 <= channelCount c < 2 ^ 31 /\
  r_err (P [MutexLock; GetCurrentPadding]) = None /\
  uint32 (r_u32 (P [MutexLock; GetCurrentPadding])) < bufferFrames c /\
  requested calls = [512] /\
  pulled calls = [1024] /\
  committed calls = [(512, 0)].
Proof.
  intros P c calls.
  assert (H1 : is_uint32 (bufferFrames c)) by (vm_compute; split; congruence).
  assert (H2 : 0 <= channelCount c < 2 ^ 31) by (vm_compute; split; congruence).
  assert (H3 : r_err (P ([] ++ [MutexLock; GetCurrentPadding])) = None)
    by reflexivity.
  assert (H4 : uint32 (r_u32 (P ([] ++ [MutexLock; GetCurrentPadding])))
               < bufferFrames c) by reflexivity.
  pose proof (fill_cycle_exact_frames P c [] H1 H2 H3 H4) as T.
  cbv zeta in T. destruct T as (T1 & T2 & _).
  specialize (T2 eq_refl). destruct T2 as [T2 T3].
  repeat split; try assumption; try (vm_compute; congruence).
Defined.

(** Above capacity the subtraction of line 257 wraps: whenever the padding
    reported exceeds the capacity, the cycle asks for a write pointer for
    2^32 - (padding - capacity) frames. *)
Lemma fill_cycle_wraps_above_capacity : forall P c log,
  let h1 := log ++ [MutexLock; GetCurrentPadding] in
  let padding := uint32 (r_u32 (P h1)) in
  let r := run writeOnRenderThread P c log in
  is_uint32 (bufferFrames c) ->
  r_err (P h1) = None ->
  bufferFrames c < padding ->
  cycle_frames P c log = 2 ^ 32 - (padding - bufferFrames c) /\
  requested (new_calls log (snd r)) = [2 ^ 32 - (padding - bufferFrames c)].
Proof.
  intros P c log h1 padding r Hcap Herr Hpad.
  assert (Hp : is_uint32 padding) by apply uint32_range.
  assert (Hf : uint32 (bufferFrames c - padding)
               = 2 ^ 32 - (padding - bufferFrames c)).
  { unfold is_uint32 in *.
    change (uint32 (bufferFrames c - padding))
      with ((bufferFrames c - padding) mod 2 ^ 32).
    rewrite <- (Z.mod_add (bufferFrames c - padding) 1 (2 ^ 32)) by lia.
    rewrite Z.mod_small by lia. lia. }
  split; [exact Hf|].
  subst r h1. unfold_drv. flatten_log.
  rewrite Herr. cbn [fst snd st_ctx st_log].
  fold padding. rewrite Hf.
  assert (Hpos : (2 ^ 32 - (padding - bufferFrames c) <=? 0) = false).
  { apply Z.leb_gt. unfold is_uint32 in *. lia. }
  rewrite Hpos.
  case_drv; flatten_log; rewrite new_calls_app; reflexivity.
Qed.

(** C2, at capacity 1024 and padding 1025.  Line 257 subtracts in [uint32]:
    1024 - 1025 wraps to 4294967295, the test [frames <= 0] of line 258
    does not fire, and the cycle asks for a write pointer for 4294967295
    frames, allocates and pulls 8589934590 samples and commits 4294967295
    frames. *)
Theorem fill_cycle_padding_above_capacity :
  let P := scripted 1024 [1025] in
  let r := run writeOnRenderThread P stereo_1024 [] in
  uint32 (r_u32 (P [MutexLock; GetCurrentPadding])) = 1025 /\
  bufferFrames stereo_1024 = 1024 /\
  cycle_frames P stereo_1024 [] = 4294967295 /\
  fst r = Return None /\
  st_log (snd r) =
    [MutexLock; GetCurrentPadding; GetBuffer 4294967295;
     MakeFloat32s 8589934590; ReadFloat32s 8589934590;
     CopyToDevice 1 8589934590; ReleaseBuffer 4294967295 0; MutexUnlock] /\
  buf (st_ctx (snd r)) = mkSlice 0 8589934590.
Proof. vm_compute. repeat split; reflexivity. Qed.

(** ** Setup *)

Ltac solve_In :=
  repeat match goal with
         | H : In _ _ |- _ => cbn [In] in H
         | H : _ \/ _ |- _ => destruct H
         | H : False |- _ => destruct H
         | H : @eq Call _ _ |- _ => discriminate H
         end.

(** C5.  When the audio client answers the exact-format query for the
    candidate format with a closest alternative, setup returns an error,
    the context's mix format stays as it was, and neither the client's
    initialization nor its start is performed.  When the query itself
    reports no error, the error returned is the driver's own "format is not
    supported". *)
Theorem closest_format_is_rejected : forall P c log f',
  let f := candidateFormat c in
  let h := log ++ [CoCreateInstance; GetDefaultAudioEndPoint; Activate;
                   SetClientProperties 0 _AudioCategory_Other;
                   IsFormatSupported _AUDCLNT_SHAREMODE_SHARED f] in
  let r := run initOnCOMThread P c log in
  let calls := new_calls log (snd r) in
  r_closest (P h) = Some f' ->
  (exists e, fst r = Some e) /\
  mixFormat (st_ctx (snd r)) = mixFormat c /\
  existsb is_Initialize calls = false /\
  existsb is_ClientStart calls = false /\
  (In (IsFormatSupported _AUDCLNT_SHAREMODE_SHARED f) calls ->
   r_err (P h) = None ->
   fst r = Some format_not_supported).
Proof.
  intros P c log f' f h r calls Hclosest. subst calls r h f.
  unfold_drv.
  case_drv; rewrite ?candidateFormat_set_client in *; flatten_log;
    rewrite new_calls_app;
    cbn [existsb is_Initialize is_ClientStart orb mixFormat set_client
         set_mixFormat set_bufferFrames set_renderClient set_sampleReadyEvent].
  all: try congruence.
  all: repeat split; eauto; try congruence.
  all: intros Hin Hnil; solve_In; congruence.
Qed.

Lemma closest_format_is_rejected_witness :
  let P := offers_closest 6 (scripted 1024 []) in
  let c := new_context 48000 2 7 in
  let r := run initOnCOMThread P c [] in
  r_closest (P [CoCreateInstance; GetDefaultAudioEndPoint; Activate;
                SetClientProperties 0 _AudioCategory_Other;
                IsFormatSupported _AUDCLNT_SHAREMODE_SHARED (candidateFormat c)])
  <> None /\
  fst r = Some format_not_supported /\
  mixFormat (st_ctx (snd r)) = None /\
  existsb is_Initialize (st_log (snd r)) = false.
Proof.
  intros P c r.
  split; [vm_compute; discriminate|].
  pose proof (closest_format_is_rejected P c []
                (mkFormat (wFormatTag (candidateFormat c)) 6
                   (nSamplesPerSec (candidateFormat c))
                   (nAvgBytesPerSec (candidateFormat c))
                   (nBlockAlign (candidateFormat c))
                   (wBitsPerSample (candidateFormat c))
                   (cbSize (candidateFormat c)) (Samples (candidateFormat c))
                   (dwChannelMask (candidateFormat c))
                   (SubFormat (candidateFormat c)))
                eq_refl) as T.
  cbv zeta in T. destruct T as (_ & T2 & T3 & _ & T5).
  split; [apply T5; [vm_compute; tauto | reflexivity]|].
  split; [exact T2 | exact T3].
Defined.

(** ** Construction with an unsupported channel count *)

Lemma scripted_ok : forall capacity paddings h,
  r_err (scripted capacity paddings h) = None /\
  r_closest (scripted capacity paddings h) = None.
Proof.
  intros capacity paddings h. unfold scripted.
  destruct (last h CoUninitialize); split; reflexivity.
Qed.

(** C1, refuted.  With three channels on a platform where every call
    succeeds, construction is not rejected before the hardware calls: it
    succeeds, after the device was activated, the format queried, the
    client initialized and started. *)
Lemma unsupported_count_not_rejected :
  ~ rejected_before_hardware 48000 3 7 (scripted 1024 []).
Proof.
  unfold rejected_before_hardware. intros (H & _). vm_compute in H.
  discriminate H.
Qed.

Example three_channels_on_willing_platform :
  let r := newWASAPIContext 48000 3 7 (scripted 1024 []) [] in
  let f := candidateFormat (new_context 48000 3 7) in
  snd (fst r) = None /\
  dwChannelMask f = 0 /\
  nChannels f = 3 /\
  hardware_calls (snd r) =
    [Activate;
     IsFormatSupported _AUDCLNT_SHAREMODE_SHARED f;
     Initialize _AUDCLNT_SHAREMODE_SHARED
       (Z.lor _AUDCLNT_STREAMFLAGS_EVENTCALLBACK _AUDCLNT_STREAMFLAGS_NOPERSIST)
       (Some f);
     ClientStart].
Proof. vm_compute. repeat split; reflexivity. Qed.

(** C1, amended.  The driver does not reject a channel count outside
    {1, 2} itself.  It leaves the channel mask of the candidate format
    zero and hands the format to the platform: construction fails only
    with an error that a platform call returned or with the closest-format
    error of the format query, and on a platform whose calls all succeed
    and report exact support it succeeds, having activated the device,
    queried the format, initialized and started the client. *)
Theorem unsupported_count_left_to_platform : forall sr ch mx P log,
  ch <> 1 -> ch <> 2 ->
  let f := candidateFormat (new_context sr ch mx) in
  let r := newWASAPIContext sr ch mx P log in
  dwChannelMask f = 0 /\
  nChannels f = uint16 ch /\
  (forall e, snd (fst r) = Some e ->
     e = format_not_supported \/ exists h, r_err (P h) = Some e) /\
  ((forall h, r_err (P h) = None /\ r_closest (P h) = None) ->
   snd (fst r) = None /\
   (exists c, fst (fst r) = Some c /\ channelCount c = ch /\
              mixFormat c = Some f) /\
   hardware_calls (later_calls log (snd r)) =
     [Activate;
      IsFormatSupported _AUDCLNT_SHAREMODE_SHARED f;
      Initialize _AUDCLNT_SHAREMODE_SHARED
        (Z.lor _AUDCLNT_STREAMFLAGS_EVENTCALLBACK _AUDCLNT_STREAMFLAGS_NOPERSIST)
        (Some f);
      ClientStart]).
Proof.
  intros sr ch mx P log H1 H2 f r.
  split.
  { subst f. cbn [candidateFormat dwChannelMask].
    unfold candidate_channelMask. cbn [new_context channelCount].
    destruct (ch =? 1) eqn:E1; [apply Z.eqb_eq in E1; contradiction|].
    destruct (ch =? 2) eqn:E2; [apply Z.eqb_eq in E2; contradiction|].
    reflexivity. }
  split; [reflexivity|].
  split.
  - intros e. subst r f. unfold newWASAPIContext, newCOMThread.
    destruct (r_err (P (log ++ [CoInitializeEx _COINIT_MULTITHREADED])))
      as [e0|] eqn:E0.
    + cbn [fst snd]. intros He. inversion He; subst.
      right. eexists. exact E0.
    + unfold_drv. case_drv; cbn [fst snd]; intros He; inversion He; subst;
        try (left; reflexivity);
        right; eexists; eassumption.
  - intros Hall. subst r f. unfold newWASAPIContext, newCOMThread.
    rewrite (proj1 (Hall _)).
    unfold_drv. case_drv;
      repeat match goal with
             | H : r_err (P ?h) = Some _ |- _ =>
               rewrite (proj1 (Hall h)) in H; discriminate H
             | H : r_closest (P ?h) = Some _ |- _ =>
               rewrite (proj2 (Hall h)) in H; discriminate H
             end.
    cbn [fst snd st_ctx st_log].
    split; [reflexivity|].
    split; [eexists; split; [reflexivity|]; split; reflexivity|].
    flatten_log. rewrite later_calls_app. reflexivity.
Qed.

Lemma unsupported_count_left_to_platform_witness :
  let r := newWASAPIContext 48000 3 7 (scripted 1024 []) [] in
  3 <> 1 /\ 3 <> 2 /\
  (forall h, r_err (scripted 1024 [] h) = None /\
             r_closest (scripted 1024 [] h) = None) /\
  dwChannelMask (candidateFormat (new_context 48000 3 7)) = 0 /\
  snd (fst r) = None.
Proof.
  intros r.
  assert (H1 : 3 <> 1) by discriminate.
  assert (H2 : 3 <> 2) by discriminate.
  pose proof (unsupported_count_left_to_platform 48000 3 7 (scripted 1024 []) []
                H1 H2) as T.
  cbv zeta in T. destruct T as (T1 & _ & _ & T4).
  split; [exact H1|]. split; [exact H2|].
  split; [exact (scripted_ok 1024 [])|].
  split; [exact T1|].
  exact (proj1 (T4 (scripted_ok 1024 []))).
Defined.

(** ** The apartment worker when [CoInitializeEx] fails *)

Lemma comthread_reach_run : forall coinit fuel s,
  COMThread.reach coinit s -> COMThread.reach coinit (COMThread.run coinit fuel s).
Proof.
  intros coinit. induction fuel as [|fuel IH]; intros s Hs; cbn [COMThread.run].
  - exact Hs.
  - destruct (COMThread.steps coinit s) as [|s' rest] eqn:E; [exact Hs|].
    apply IH. apply COMThread.reach_step with s; [exact Hs|].
    unfold COMThread.step. rewrite E. left. reflexivity.
Qed.

(** Every state of a construction whose [CoInitializeEx] fails is one of
    five, whatever the interleaving. *)
Lemma comthread_reach_failing : forall e s,
  COMThread.reach (Some e) s -> In s (COMThread.failing_states e).
Proof.
  intros e s H. induction H as [|s s' _ IH Hstep].
  - left. reflexivity.
  - unfold COMThread.step in Hstep. cbn [COMThread.failing_states In] in IH.
    destruct IH as [<-|[<-|[<-|[<-|[<-|[]]]]]];
      cbn in Hstep; repeat (destruct Hstep as [<-|Hstep]); try contradiction;
      cbn; tauto.
Qed.

Lemma comthread_reach_succeeding : forall s,
  COMThread.reach None s -> In s COMThread.succeeding_states.
Proof.
  intros s H. induction H as [|s s' _ IH Hstep].
  - left. reflexivity.
  - unfold COMThread.step in Hstep. cbn [COMThread.succeeding_states In] in IH.
    destruct IH as [<-|[<-|[<-|[<-|[<-|[]]]]]];
      cbn in Hstep; repeat (destruct Hstep as [<-|Hstep]); try contradiction;
      cbn; tauto.
Qed.

Lemma comthread_run_terminal : forall coinit fuel s,
  COMThread.steps coinit s = [] -> COMThread.run coinit fuel s = s.
Proof.
  intros coinit [|fuel] s H; cbn [COMThread.run]; [reflexivity|].
  rewrite H. reflexivity.
Qed.

(** The caller's result in the goroutine model is the one [newWASAPIContext]
    works with: the error of the worker's [CoInitializeEx]. *)
Lemma comthread_result : forall coinit n,
  COMThread.returned (COMThread.run coinit (4 + n) COMThread.init) = Some coinit.
Proof.
  intros [e|] n; cbn [Nat.add COMThread.run]; cbn;
    rewrite comthread_run_terminal; reflexivity.
Qed.

(** C3, when [CoInitializeEx] fails with [e].  The caller does get [e]:
    [newCOMThread] returns [nil, e].  But the worker goroutine is not gone:
    after handing [e] over it closes [errCh] and blocks in the [range] over
    [funcCh], which nothing closes and nothing else can reach.  That is the
    one state where everything has come to rest, under every interleaving,
    and no reachable state has the worker exited. *)
Theorem newCOMThread_failure_leaves_worker : forall e n,
  let final := COMThread.run (Some e) (4 + n) COMThread.init in
  final = COMThread.mkSys (COMThread.c_returned (Some e)) COMThread.w_range
            true false /\
  COMThread.reach (Some e) final /\
  COMThread.terminal (Some e) final /\
  COMThread.returned final = Some (Some e) /\
  COMThread.worker_alive final = true /\
  (forall s, COMThread.reach (Some e) s ->
     COMThread.worker s <> COMThread.w_exited) /\
  (forall s, COMThread.reach (Some e) s -> COMThread.terminal (Some e) s ->
     s = final).
Proof.
  intros e n final.
  assert (Hf : final = COMThread.mkSys (COMThread.c_returned (Some e))
                         COMThread.w_range true false).
  { subst final. cbn [Nat.add COMThread.run]. cbn.
    apply comthread_run_terminal. reflexivity. }
  split; [exact Hf|].
  split; [apply comthread_reach_run; apply COMThread.reach_init|].
  clearbody final. subst final.
  split; [reflexivity|].
  split; [reflexivity|].
  split; [reflexivity|].
  split.
  - intros s Hs. apply comthread_reach_failing in Hs.
    cbn [COMThread.failing_states In] in Hs.
    destruct Hs as [<-|[<-|[<-|[<-|[<-|[]]]]]]; discriminate.
  - intros s Hs Ht. apply comthread_reach_failing in Hs.
    cbn [COMThread.failing_states In] in Hs. unfold COMThread.terminal in Ht.
    destruct Hs as [<-|[<-|[<-|[<-|[<-|[]]]]]];
      try reflexivity; cbn in Ht; discriminate Ht.
Qed.

(* ================================================================= *)
(** * Further properties *)

(** ** Setup, call by call *)

(** Setup returns nil only after the complete sequence of calls, in the
    order of the source, ending with the start of the client, the start of
    the render goroutine and the two deferred releases; the context then
    holds the client, the candidate format as mix format, the capacity the
    client reported (a [uint32]), the render client and the event, and its
    sample rate, channel count, mixing engine, error cell and scratch
    buffer are as before. *)
Theorem setup_success_calls : forall P c log,
  let r := run initOnCOMThread P c log in
  let c' := st_ctx (snd r) in
  let f := candidateFormat c in
  fst r = None ->
  new_calls log (snd r) = setup_calls f (sampleReadyEvent c') /\
  client c' = r_ptr (P (log ++ firstn 3 (setup_calls f 0))) /\
  mixFormat c' = Some f /\
  bufferFrames c' = uint32 (r_u32 (P (log ++ firstn 7 (setup_calls f 0)))) /\
  is_uint32 (bufferFrames c') /\
  renderClient c' = r_ptr (P (log ++ firstn 8 (setup_calls f 0))) /\
  sampleReadyEvent c' = r_ptr (P (log ++ firstn 9 (setup_calls f 0))) /\
  sampleRate c' = sampleRate c /\
  channelCount c' = channelCount c /\
  mux c' = mux c /\
  err c' = err c /\
  buf c' = buf c.
Proof.
  intros P c log r c' f Hnil. subst r c' f.
  unfold setup_calls. cbn [firstn].
  revert Hnil. unfold_drv.
  case_drv; rewrite ?candidateFormat_set_client in *; try discriminate.
  intros _. flatten_log. rewrite new_calls_app.
  cbn [client mixFormat bufferFrames renderClient sampleReadyEvent sampleRate
       channelCount mux err buf set_client set_mixFormat set_bufferFrames
       set_renderClient set_sampleReadyEvent].
  repeat split; try reflexivity; apply uint32_range.
Qed.

Lemma setup_success_calls_witness :
  let P := scripted 1024 [] in
  let c := new_context 48000 2 7 in
  let r := run initOnCOMThread P c [] in
  fst r = None /\
  st_log (snd r) = setup_calls (candidateFormat c) 1 /\
  bufferFrames (st_ctx (snd r)) = 1024.
Proof.
  intros P c r.
  assert (H : fst r = None) by reflexivity.
  pose proof (setup_success_calls P c [] H) as T.
  cbv zeta in T. destruct T as (T1 & _ & _ & T4 & _).
  split; [exact H|]. split; [exact T1 | exact T4].
Defined.

(** The render goroutine is started exactly when setup returns nil, and
    then as the last call before the deferred releases; the client's start
    is never followed by another call of the client. *)
Theorem render_thread_started_iff_setup_succeeds : forall P c log,
  let r := run initOnCOMThread P c log in
  let calls := new_calls log (snd r) in
  count is_GoRenderThread calls
  = match fst r with None => 1%nat | Some _ => 0%nat end /\
  (count is_ClientStart calls <= 1)%nat /\
  (forall pre post, calls = pre ++ ClientStart :: post ->
     post = [DeviceRelease; EnumeratorRelease] \/
     post = [GoRenderThread; DeviceRelease; EnumeratorRelease]).
Proof.
  intros P c log r calls. subst calls r.
  unfold_drv.
  case_drv; flatten_log; rewrite new_calls_app; cbn [fst snd].
  all: split; [reflexivity|]; split; [cbn; lia|].
  all: intros pre post Heq.
  all: repeat (destruct pre as [|? pre];
               [cbn [app] in Heq; try discriminate Heq;
                inversion Heq; subst; auto
               |cbn [app] in Heq; inversion Heq; subst; clear Heq;
                match goal with H : _ = pre ++ _ |- _ => rename H into Heq end]).
  all: try (destruct pre; discriminate Heq).
Qed.

Ltac use_answers :=
  repeat match goal with
         | H : r_err _ = _ |- _ => rewrite H
         end.

(** On every path out of setup the enumerator and the device are released
    exactly when they were obtained, and the releases are the last calls,
    the device first. *)
Theorem setup_releases_what_it_obtained : forall P c log,
  let calls := new_calls log (snd (run initOnCOMThread P c log)) in
  let enumerator := r_err (P (log ++ [CoCreateInstance])) in
  let device := r_err (P (log ++ [CoCreateInstance; GetDefaultAudioEndPoint])) in
  count is_EnumeratorRelease calls
  = match enumerator with None => 1%nat | Some _ => 0%nat end /\
  count is_DeviceRelease calls
  = match enumerator, device with None, None => 1%nat | _, _ => 0%nat end /\
  firstn 2 (rev calls)
  = match enumerator, device with
    | None, None => [EnumeratorRelease; DeviceRelease]
    | None, Some _ => [EnumeratorRelease; GetDefaultAudioEndPoint]
    | Some _, _ => [CoCreateInstance]
    end.
Proof.
  intros P c log calls enumerator device. subst calls enumerator device.
  unfold_drv.
  case_drv; flatten_log; try congruence; rewrite new_calls_app; use_answers;
    repeat split; reflexivity.
Qed.

(** ** Construction *)

(** [newWASAPIContext] returns either a context and nil or nil and an
    error.  A context returned has the sample rate, channel count and
    mixing engine asked for, an empty error cell, the nil scratch buffer, a
    capacity that is a [uint32] and the candidate format as mix format, and
    the calls made were the worker's [CoInitializeEx] followed by the
    complete setup.  When an error is returned no render goroutine was
    started, and when it is the error of [CoInitializeEx] nothing else was
    called. *)
Theorem construction_result : forall sr ch mx P log,
  let r := newWASAPIContext sr ch mx P log in
  let calls := later_calls log (snd r) in
  match fst (fst r), snd (fst r) with
  | Some c, None =>
    sampleRate c = sr /\ channelCount c = ch /\ mux c = mx /\
    err c = atomicError_zero /\ buf c = nil_slice /\
    is_uint32 (bufferFrames c) /\
    mixFormat c = Some (candidateFormat c) /\
    calls = CoInitializeEx _COINIT_MULTITHREADED
              :: setup_calls (candidateFormat c) (sampleReadyEvent c)
  | None, Some e =>
    count is_GoRenderThread calls = 0%nat /\
    (r_err (P (log ++ [CoInitializeEx _COINIT_MULTITHREADED])) <> None ->
     r_err (P (log ++ [CoInitializeEx _COINIT_MULTITHREADED])) = Some e /\
     calls = [CoInitializeEx _COINIT_MULTITHREADED])
  | _, _ => False
  end.
Proof.
  intros sr ch mx P log r calls. subst calls r.
  unfold newWASAPIContext, newCOMThread.
  destruct (r_err (P (log ++ [CoInitializeEx _COINIT_MULTITHREADED])))
    as [e0|] eqn:E0.
  - cbn [fst snd]. rewrite later_calls_app.
    split; [reflexivity|]. intros _. split; reflexivity.
  - unfold_drv.
    case_drv; rewrite ?candidateFormat_set_client in *; flatten_log;
      rewrite later_calls_app; cbn [fst snd].
    all: try (split; [reflexivity | intros Hne; exfalso; apply Hne; reflexivity]).
    unfold setup_calls.
    cbn [sampleRate channelCount mux err buf bufferFrames mixFormat
         sampleReadyEvent new_context set_client set_mixFormat
         set_bufferFrames set_renderClient set_sampleReadyEvent].
    repeat split; try reflexivity; apply uint32_range.
Qed.

(** ** The candidate format beyond mono and stereo *)

(** For every channel count from 0 to 16383 and every sample rate, the
    candidate format is consistent in itself: its block alignment is
    channels times bits per sample over 8, and its byte rate is samples
    per second times block alignment in the arithmetic of its 32-bit
    field; its channel mask is zero unless the count is 1 or 2. *)
Theorem candidate_format_consistent : forall c,
  0 <= channelCount c < 2 ^ 14 ->
  let f := candidateFormat c in
  nChannels f = channelCount c /\
  nBlockAlign f = nChannels f * wBitsPerSample f / 8 /\
  nAvgBytesPerSec f = uint32 (nSamplesPerSec f * nBlockAlign f) /\
  (channelCount c <> 1 -> channelCount c <> 2 -> dwChannelMask f = 0).
Proof.
  intros c Hch f.
  assert (Hq : channelCount c * 32 / 8 = channelCount c * 4).
  { replace (channelCount c * 32) with (channelCount c * 4 * 8) by lia.
    apply Z.div_mul. lia. }
  assert (Hba : candidate_nBlockAlign c = channelCount c * 4).
  { unfold candidate_nBlockAlign, int_mul, int_div, bitsPerSample.
    rewrite (int_small (channelCount c * 32)) by (unfold is_int; lia).
    rewrite Z.quot_div_nonneg by lia. rewrite Hq.
    apply int_small. unfold is_int. lia. }
  assert (Hn : nChannels f = channelCount c).
  { subst f. cbn [candidateFormat nChannels]. unfold uint16.
    apply Z.mod_small. lia. }
  assert (Hb : nBlockAlign f = channelCount c * 4).
  { subst f. cbn [candidateFormat nBlockAlign]. rewrite Hba. unfold uint16.
    apply Z.mod_small. lia. }
  split; [exact Hn|].
  split.
  { rewrite Hb, Hn. subst f. cbn [candidateFormat wBitsPerSample].
    unfold bitsPerSample. symmetry. exact Hq. }
  split.
  { rewrite Hb. subst f. cbn [candidateFormat nAvgBytesPerSec nSamplesPerSec].
    rewrite Hba. unfold int_mul. rewrite uint32_int. unfold uint32.
    rewrite Z.mul_mod_idemp_l by lia. reflexivity. }
  intros H1 H2. subst f. cbn [candidateFormat dwChannelMask].
  unfold candidate_channelMask.
  destruct (channelCount c =? 1) eqn:E1; [apply Z.eqb_eq in E1; contradiction|].
  destruct (channelCount c =? 2) eqn:E2; [apply Z.eqb_eq in E2; contradiction|].
  reflexivity.
Qed.

Lemma candidate_format_consistent_witness :
  let c := new_context (-44100) 6 7 in
  0 <= channelCount c < 2 ^ 14 /\
  nBlockAlign (candidateFormat c) = 24 /\
  nAvgBytesPerSec (candidateFormat c)
  = uint32 (nSamplesPerSec (candidateFormat c) * 24) /\
  dwChannelMask (candidateFormat c) = 0.
Proof.
  intros c.
  assert (H : 0 <= channelCount c < 2 ^ 14) by (cbn; lia).
  pose proof (candidate_format_consistent c H) as T.
  cbv zeta in T. destruct T as (_ & _ & T3 & T4).
  split; [exact H|]. split; [reflexivity|].
  split; [exact T3|].
  apply T4; cbn; lia.
Defined.

(** ** The fill cycle, path by path *)

Ltac use_tests :=
  repeat match goal with
         | H : (_ <? _) = _ |- _ => rewrite H
         | H : (_ <=? _) = _ |- _ => rewrite H
         end.

(** A fill cycle takes one of three paths, and on each the mutex is taken
    first and released last.  (A) It stops after the padding query, on its
    error or because no frame is free: nothing else is called and the
    context is untouched.  (B) It stops after the write-pointer request, on
    its error or on a panic when the sample count is negative: nothing is
    pulled or committed and the context is untouched.  (C) It fills: the
    scratch buffer is allocated exactly when its capacity is below the
    sample count, exactly that many samples are pulled and copied to the
    pointer granted, the frames requested are committed with no flags, and
    the result is the result of the commit; the buffer is emptied when the
    commit succeeds and left full when it fails. *)
Theorem fill_cycle_paths : forall P c log,
  let r := run writeOnRenderThread P c log in
  let calls := new_calls log (snd r) in
  let c' := st_ctx (snd r) in
  let f := cycle_frames P c log in
  let n := cycle_buflen P c log in
  let h1 := log ++ [MutexLock; GetCurrentPadding] in
  let h2 := h1 ++ [GetBuffer f] in
  let fill := fill_calls f n (r_ptr (P h2)) (cap (buf c) <? n) in
  let h3 := h1 ++ fill in
  (calls = [MutexLock; GetCurrentPadding; MutexUnlock] /\
   fst r = Return (r_err (P h1)) /\
   (r_err (P h1) = None -> f = 0) /\
   c' = c)
  \/
  (calls = [MutexLock; GetCurrentPadding; GetBuffer f; MutexUnlock] /\
   r_err (P h1) = None /\ 0 < f /\ c' = c /\
   (r_err (P h2) <> None /\ fst r = Return (r_err (P h2)) \/
    r_err (P h2) = None /\ n < 0 /\ exists msg, fst r = Panic msg))
  \/
  (calls = [MutexLock; GetCurrentPadding] ++ fill ++ [MutexUnlock] /\
   r_err (P h1) = None /\ 0 < f /\ r_err (P h2) = None /\ 0 <= n /\
   fst r = Return (r_err (P h3)) /\
   c' = set_buf (buf c') c /\
   cap (buf c') = Z.max (cap (buf c)) n /\
   len (buf c') = match r_err (P h3) with None => 0 | Some _ => n end).
Proof.
  intros P c log r calls c' f n h1 h2 fill h3.
  subst h3 fill h2 h1 n f c' calls r.
  unfold cycle_buflen, cycle_frames, fill_calls.
  destruct c as [sr ch mx er ev cl mf bf rc b].
  unfold_drv.
  case_drv; flatten_log; rewrite new_calls_app;
    cbn [app buf set_buf cap len sl_cap sl_len bufferFrames channelCount] in *;
    slice_facts; cbn [cap len sl_cap sl_len buf set_buf] in *;
    rewrite ?Z.min_id in *.
  all: set (f := uint32 (bf - uint32 (r_u32 (P (log ++ [MutexLock; GetCurrentPadding]))))) in *.
  all: set (n := int_mul (int f) ch) in *.
  all: pose proof (uint32_range
                     (bf - uint32 (r_u32 (P (log ++ [MutexLock; GetCurrentPadding])))))
         as Hrange; unfold is_uint32 in Hrange; fold f in Hrange.
  all: repeat match goal with
              | H : _ < _ |- context [?a <? ?b] =>
                replace (a <? b) with true by (symmetry; apply Z.ltb_lt; exact H)
              | H : _ <= _ |- context [?a <? ?b] =>
                replace (a <? b) with false by (symmetry; apply Z.ltb_ge; exact H)
              end.
  all: use_answers; cbn [app].
  all: try congruence.
  all: first
    [ left; repeat split; try reflexivity; try discriminate;
      solve [intros; lia | intros; discriminate]
    | right; left; repeat split; try reflexivity; try lia;
      first [ left; split; [discriminate | reflexivity]
            | right; repeat split; try reflexivity;
              unfold cap in *; try lia; eexists; reflexivity ]
    | right; right; use_answers; cbn [app];
      repeat split; try reflexivity; try congruence; unfold cap, len in *;
      cbn [sl_cap sl_len] in *; lia ].
Qed.

(** ** The render loop, wake-up by wake-up *)

Lemma mutex_ok_app : forall l1 l2 held,
  mutex_ok held (l1 ++ l2)
  = match mutex_ok held l1 with
    | Some held' => mutex_ok held' l2
    | None => None
    end.
Proof.
  induction l1 as [|a l1 IH]; intros l2 held; [reflexivity|].
  destruct a, held; cbn [app mutex_ok needs_mutex andb negb];
    try reflexivity; apply IH.
Qed.

Lemma waits_app : forall l1 l2, waits (l1 ++ l2) = waits l1 ++ waits l2.
Proof.
  induction l1 as [|a l1 IH]; intros l2; [reflexivity|].
  destruct a; cbn [app waits]; rewrite ?IH; reflexivity.
Qed.

Lemma pulled_app : forall l1 l2, pulled (l1 ++ l2) = pulled l1 ++ pulled l2.
Proof.
  induction l1 as [|a l1 IH]; intros l2; [reflexivity|].
  destruct a; cbn [app pulled]; rewrite ?IH; reflexivity.
Qed.

Lemma copied_app : forall l1 l2, copied (l1 ++ l2) = copied l1 ++ copied l2.
Proof.
  induction l1 as [|a l1 IH]; intros l2; [reflexivity|].
  destruct a; cbn [app copied]; rewrite ?IH; reflexivity.
Qed.

Lemma count_app : forall f l1 l2,
  count f (l1 ++ l2) = (count f l1 + count f l2)%nat.
Proof.
  intros f l1 l2. unfold count. rewrite filter_app. apply length_app.
Qed.

(** What one fill cycle adds to the log. *)
Lemma write_log_facts : forall P s,
  exists evs,
    st_log (snd (writeOnRenderThread P s)) = st_log s ++ evs /\
    mutex_ok false evs = Some false /\
    waits evs = [] /\
    count is_MutexLock evs = 1%nat /\
    forallb is_loop_call evs = true /\
    pulled evs = copied evs.
Proof.
  intros P [c log]. unfold_drv.
  case_drv; flatten_log; (eexists; split; [reflexivity|]);
    cbn [buf set_buf len sl_len] in *; slice_facts; cbn [len sl_len];
    rewrite ?Z.min_id; repeat split; reflexivity.
Qed.

(** What the render loop adds to the log, and how it can end. *)
Lemma loop_log_facts : forall fuel P s,
  exists evs,
    st_log (snd (loopOnRenderThread fuel P s)) = st_log s ++ evs /\
    mutex_ok false evs = Some false /\
    Forall (fun w => w = (sampleReadyEvent (st_ctx s), INFINITE)) (waits evs) /\
    (count is_MutexLock evs <= List.length (waits evs)
     <= S (count is_MutexLock evs))%nat /\
    (List.length (waits evs) <= fuel)%nat /\
    forallb is_loop_call evs = true /\
    pulled evs = copied evs /\
    fst (loopOnRenderThread fuel P s) <> Some (Return None) /\
    (fst (loopOnRenderThread fuel P s) = None ->
     List.length (waits evs) = fuel /\ count is_MutexLock evs = fuel).
Proof.
  induction fuel as [|fuel IH]; intros P s.
  - exists []. cbn. rewrite app_nil_r.
    repeat split; try reflexivity; try lia; try constructor; discriminate.
  - cbn [loopOnRenderThread].
    unfold windows_WaitForSingleObject, u32_call, call, get, bind, ret.
    case_drv.
    all: try solve
      [ eexists; split; [reflexivity|]; cbn;
        repeat split;
        first [ reflexivity | lia | discriminate
              | constructor; [reflexivity | constructor] ] ].
    + match goal with
      | |- context [writeOnRenderThread P ?s1] =>
        pose proof (write_log_facts P s1) as Hw;
        pose proof (write_but_buf P s1) as Hb;
        destruct (writeOnRenderThread P s1) as [o s2]
      end.
      cbn [fst snd st_ctx st_log] in Hw, Hb.
      apply but_buf_fields in Hb.
      destruct Hb as (_ & _ & _ & _ & _ & Hev & _).
      destruct Hw as (evw & Hlog & Hm & Hwt & Hlk & Hall & Hpc).
      assert (Hframe :
        forall rest,
          mutex_ok false rest = Some false ->
          mutex_ok false
            ((WaitForSingleObject (sampleReadyEvent (st_ctx s)) INFINITE :: evw)
               ++ rest) = Some false).
      { intros rest Hrest. cbn [app mutex_ok].
        rewrite mutex_ok_app, Hm. exact Hrest. }
      destruct o as [[e|]|msg]; cbn [fst snd].
      * exists (WaitForSingleObject (sampleReadyEvent (st_ctx s)) INFINITE :: evw).
        split; [rewrite Hlog, <- app_assoc; reflexivity|].
        split; [rewrite <- (app_nil_r (_ :: evw)); apply Hframe; reflexivity|].
        cbn [waits forallb is_loop_call pulled copied]. rewrite Hwt.
        change (count is_MutexLock (WaitForSingleObject
                  (sampleReadyEvent (st_ctx s)) INFINITE :: evw))
          with (count is_MutexLock evw). rewrite Hlk. cbn [List.length].
        repeat split; try lia; try assumption; try discriminate.
        constructor; [reflexivity | constructor].
      * destruct (IH P s2) as
          (ev2 & Hlog2 & Hm2 & Hwt2 & Hcnt2 & Hfuel2 & Hall2 & Hpc2 & Hne2 & Hrun2).
        exists ((WaitForSingleObject (sampleReadyEvent (st_ctx s)) INFINITE :: evw)
                  ++ ev2).
        split; [rewrite Hlog2, Hlog, <- !app_assoc; reflexivity|].
        split; [apply Hframe; exact Hm2|].
        rewrite waits_app, count_app, forallb_app, pulled_app, copied_app.
        cbn [waits forallb is_loop_call pulled copied]. rewrite Hwt.
        change (count is_MutexLock (WaitForSingleObject
                  (sampleReadyEvent (st_ctx s)) INFINITE :: evw))
          with (count is_MutexLock evw). rewrite Hlk.
        cbn [app List.length]. rewrite Hall, Hall2, Hpc, Hpc2.
        rewrite Hev in Hwt2.
        repeat split; try lia; try assumption; try reflexivity.
        -- constructor; [reflexivity | exact Hwt2].
        -- destruct (Hrun2 ltac:(assumption)). lia.
        -- destruct (Hrun2 ltac:(assumption)). lia.
      * exists (WaitForSingleObject (sampleReadyEvent (st_ctx s)) INFINITE :: evw).
        split; [rewrite Hlog, <- app_assoc; reflexivity|].
        split; [rewrite <- (app_nil_r (_ :: evw)); apply Hframe; reflexivity|].
        cbn [waits forallb is_loop_call pulled copied]. rewrite Hwt.
        change (count is_MutexLock (WaitForSingleObject
                  (sampleReadyEvent (st_ctx s)) INFINITE :: evw))
          with (count is_MutexLock evw). rewrite Hlk. cbn [List.length].
        repeat split; try lia; try assumption; try discriminate.
        constructor; [reflexivity | constructor].
Qed.

(** The render loop never returns nil: when it returns, it is with an
    error or a panic.  Every fill cycle follows a wait of its own, so there
    are as many waits as cycles or one more, and a loop that is still
    running after [fuel] wake-ups has waited [fuel] times and been through
    [fuel] cycles. *)
Theorem render_loop_returns_only_failures : forall fuel P c log,
  let r := run (loopOnRenderThread fuel) P c log in
  let calls := new_calls log (snd r) in
  fst r <> Some (Return None) /\
  (count is_MutexLock calls <= List.length (waits calls)
   <= S (count is_MutexLock calls))%nat /\
  (List.length (waits calls) <= fuel)%nat /\
  (fst r = None ->
   List.length (waits calls) = fuel /\ count is_MutexLock calls = fuel).
Proof.
  intros fuel P c log r calls. subst calls r. unfold run, new_calls.
  destruct (loop_log_facts fuel P (mkState c log))
    as (evs & Hlog & _ & _ & Hcnt & Hfuel & _ & _ & Hne & Hrun).
  cbn [st_log] in Hlog. rewrite Hlog, later_calls_app.
  split; [exact Hne|]. split; [exact Hcnt|]. split; [exact Hfuel | exact Hrun].
Qed.

(** In the render loop the mutex is taken and released in strict
    alternation and is free at the end; the padding query, the
    write-pointer request, the allocation, the pull, the copy and the
    commit are made with the mutex held, and every wait is made without
    it, on the context's readiness event with an infinite timeout.  The
    loop makes no other call (it never starts or stops the client), and
    it copies to the device exactly the sample counts it pulled. *)
Theorem render_loop_mutex_discipline : forall fuel P c log,
  let calls := new_calls log (snd (run (loopOnRenderThread fuel) P c log)) in
  mutex_ok false calls = Some false /\
  Forall (fun w => w = (sampleReadyEvent c, INFINITE)) (waits calls) /\
  forallb is_loop_call calls = true /\
  copied calls = pulled calls.
Proof.
  intros fuel P c log calls. subst calls. unfold run, new_calls.
  destruct (loop_log_facts fuel P (mkState c log))
    as (evs & Hlog & Hm & Hw & _ & _ & Hall & Hpc & _).
  cbn [st_log st_ctx] in Hlog, Hw. rewrite Hlog, later_calls_app.
  split; [exact Hm|]. split; [exact Hw|]. split; [exact Hall|].
  symmetry. exact Hpc.
Qed.

(** The render loop changes the scratch buffer only: after any number of
    wake-ups all the other fields of the context are as they were. *)
Theorem render_loop_frame : forall fuel P c log,
  let c' := st_ctx (snd (run (loopOnRenderThread fuel) P c log)) in
  c' = set_buf (buf c') c /\
  sampleRate c' = sampleRate c /\
  channelCount c' = channelCount c /\
  mux c' = mux c /\
  err c' = err c /\
  sampleReadyEvent c' = sampleReadyEvent c /\
  client c' = client c /\
  mixFormat c' = mixFormat c /\
  bufferFrames c' = bufferFrames c /\
  renderClient c' = renderClient c.
Proof.
  intros fuel P c log c'. apply but_buf_fields.
  subst c'. unfold run. apply (loop_but_buf fuel P (mkState c log)).
Qed.

(** ** The render goroutine (lines 211-227) *)



(** ** The apartment worker when [CoInitializeEx] succeeds *)

(** With a successful [CoInitializeEx], under every interleaving:
    [newCOMThread] returns nothing but a nil error, and only once the
    worker has closed [errCh] and sits in its [range] over [funcCh], ready
    for jobs; the worker never exits; and nothing comes to rest before the
    caller has returned. *)
Theorem newCOMThread_success_waits_for_worker : forall s,
  COMThread.reach None s ->
  (forall r, COMThread.returned s = Some r ->
     r = None /\ COMThread.errCh_closed s = true /\
     COMThread.worker s = COMThread.w_range) /\
  COMThread.worker s <> COMThread.w_exited /\
  (COMThread.terminal None s -> COMThread.returned s = Some None).
Proof.
  intros s Hs. apply comthread_reach_succeeding in Hs.
  cbn [COMThread.succeeding_states In] in Hs. unfold COMThread.terminal.
  destruct Hs as [<-|[<-|[<-|[<-|[<-|[]]]]]]; cbn;
    (split; [intros r Hr; inversion Hr; subst; repeat split; reflexivity
            | split; [discriminate | intros Ht; try discriminate Ht; reflexivity]]).
Qed.

Lemma newCOMThread_success_waits_for_worker_witness :
  let s := COMThread.run None 4 COMThread.init in
  COMThread.reach None s /\
  COMThread.returned s = Some None /\
  COMThread.worker s = COMThread.w_range.
Proof.
  intros s.
  assert (Hs : COMThread.reach None s)
    by (apply comthread_reach_run; apply COMThread.reach_init).
  pose proof (newCOMThread_success_waits_for_worker s Hs) as T.
  destruct T as (T1 & _ & T3).
  split; [exact Hs|].
  assert (Hr : COMThread.returned s = Some None) by (apply T3; reflexivity).
  split; [exact Hr|]. exact (proj2 (proj2 (T1 None Hr))).
Defined.

(** ** [Run] and the worker's loop *)

Lemma upd_same : forall (A : Type) (f : nat -> A) i v, RunModel.upd f i v i = v.
Proof. intros A f i v. unfold RunModel.upd. rewrite Nat.eqb_refl. reflexivity. Qed.

Lemma upd_other : forall (A : Type) (f : nat -> A) i v j,
  j <> i -> RunModel.upd f i v j = f j.
Proof.
  intros A f i v j H. unfold RunModel.upd.
  destruct (Nat.eqb j i) eqn:E; [apply Nat.eqb_eq in E; contradiction | reflexivity].
Qed.

Lemma runmodel_init_invariant : RunModel.invariant RunModel.init.
Proof.
  unfold RunModel.invariant, RunModel.init. cbn.
  repeat split; try (intros; discriminate); try (intros; contradiction); auto.
  constructor.
Qed.

Lemma runmodel_step_invariant : forall m s s',
  RunModel.invariant s -> RunModel.step m s = Some s' -> RunModel.invariant s'.
Proof.
  intros m [sb w cl rn] s' (I1 & I2 & I3 & I4 & I5 & I6 & I7) Hstep.
  cbn [RunModel.subs RunModel.worker RunModel.closed RunModel.ran
       RunModel.busy_with] in *.
  destruct m as [i| | |i]; cbn [RunModel.step RunModel.subs RunModel.worker
                                 RunModel.closed RunModel.ran] in Hstep.
  - (* Handover i *)
    destruct w; try discriminate Hstep.
    destruct (sb i) eqn:Ei; try discriminate Hstep.
    inversion Hstep; subst s'; clear Hstep.
    destruct (I2 i Ei) as (Hn & Hc & _).
    unfold RunModel.invariant;
      cbn [RunModel.subs RunModel.worker RunModel.closed RunModel.ran
           RunModel.busy_with].
    split; [exact I1|].
    split.
    { intros j Hj. destruct (Nat.eq_dec j i) as [->|Hji].
      - rewrite upd_same in Hj. discriminate Hj.
      - rewrite upd_other in Hj by exact Hji.
        destruct (I2 j Hj) as (A & B & _).
        repeat split; try assumption. intros H. inversion H. congruence. }
    split.
    { intros k Hk. inversion Hk; subst k. rewrite upd_same.
      repeat split; assumption. }
    split; [intros k Hk; discriminate Hk|].
    split; [exact I5|].
    split.
    { intros j Hj. destruct (Nat.eq_dec j i) as [->|Hji].
      - rewrite upd_same in Hj. discriminate Hj.
      - rewrite upd_other in Hj by exact Hji. apply I6. exact Hj. }
    intros j Hj. destruct (I7 j Hj) as [H|H]; [left; exact H | discriminate H].
  - (* RunJob *)
    destruct w as [|i|i]; try discriminate Hstep.
    inversion Hstep; subst s'; clear Hstep.
    destruct (I3 i eq_refl) as (Hw & Hn & Hc).
    unfold RunModel.invariant;
      cbn [RunModel.subs RunModel.worker RunModel.closed RunModel.ran
           RunModel.busy_with].
    split.
    { apply NoDup_app; [exact I1 | repeat constructor; intros [] | ].
      intros a Ha [<-|[]]. contradiction. }
    split.
    { intros j Hj. destruct (I2 j Hj) as (A & B & C).
      repeat split; try assumption.
      intros H. apply in_app_or in H. destruct H as [H|[<-|[]]];
        [contradiction | congruence]. }
    split; [intros k Hk; discriminate Hk|].
    split.
    { intros k Hk. inversion Hk; subst k.
      repeat split; try assumption. apply in_or_app. right. left. reflexivity. }
    split; [intros j Hj; apply in_or_app; left; apply I5; exact Hj|].
    split; [exact I6|].
    intros j Hj. apply in_app_or in Hj. destruct Hj as [Hj|[<-|[]]].
    + destruct (I7 j Hj) as [H|H]; [left; exact H | discriminate H].
    + right. reflexivity.
  - (* CloseDone *)
    destruct w as [|i|i]; try discriminate Hstep.
    inversion Hstep; subst s'; clear Hstep.
    destruct (I4 i eq_refl) as (Hw & Hin & Hc).
    unfold RunModel.invariant;
      cbn [RunModel.subs RunModel.worker RunModel.closed RunModel.ran
           RunModel.busy_with].
    split; [exact I1|].
    split.
    { intros j Hj. destruct (I2 j Hj) as (A & B & C).
      assert (Hji : j <> i) by (intros ->; congruence).
      rewrite upd_other by exact Hji.
      repeat split; try assumption. discriminate. }
    split; [intros k Hk; discriminate Hk|].
    split; [intros k Hk; discriminate Hk|].
    split.
    { intros j Hj. destruct (Nat.eq_dec j i) as [->|Hji]; [exact Hin|].
      rewrite upd_other in Hj by exact Hji. apply I5. exact Hj. }
    split.
    { intros j Hj. destruct (Nat.eq_dec j i) as [->|Hji];
        [apply upd_same | rewrite upd_other by exact Hji; apply I6; exact Hj]. }
    intros j Hj. left. destruct (Nat.eq_dec j i) as [->|Hji];
      [apply upd_same|]. rewrite upd_other by exact Hji.
    destruct (I7 j Hj) as [H|H]; [exact H | congruence].
  - (* Wake i *)
    destruct (sb i) eqn:Ei; try discriminate Hstep.
    destruct (cl i) eqn:Ec; try discriminate Hstep.
    inversion Hstep; subst s'; clear Hstep.
    unfold RunModel.invariant;
      cbn [RunModel.subs RunModel.worker RunModel.closed RunModel.ran
           RunModel.busy_with].
    split; [exact I1|].
    split.
    { intros j Hj. destruct (Nat.eq_dec j i) as [->|Hji].
      - rewrite upd_same in Hj. discriminate Hj.
      - rewrite upd_other in Hj by exact Hji. apply I2. exact Hj. }
    split.
    { intros k Hk. destruct (I3 k Hk) as (A & B & C).
      assert (Hki : k <> i) by (intros ->; congruence).
      rewrite upd_other by exact Hki. repeat split; assumption. }
    split.
    { intros k Hk. destruct (I4 k Hk) as (A & B & C).
      assert (Hki : k <> i) by (intros ->; congruence).
      rewrite upd_other by exact Hki. repeat split; assumption. }
    split; [exact I5|].
    split.
    { intros j Hj. destruct (Nat.eq_dec j i) as [->|Hji]; [exact Ec|].
      rewrite upd_other in Hj by exact Hji. apply I6. exact Hj. }
    exact I7.
Qed.

Lemma runmodel_exec_invariant : forall sched s s',
  RunModel.invariant s -> RunModel.exec sched s = Some s' -> RunModel.invariant s'.
Proof.
  induction sched as [|m sched IH]; intros s s' Hinv Hex; cbn [RunModel.exec] in Hex.
  - inversion Hex; subst. exact Hinv.
  - destruct (RunModel.step m s) as [s1|] eqn:E; [|discriminate Hex].
    apply (IH s1 s'); [|exact Hex].
    apply (runmodel_step_invariant m s s1 Hinv E).
Qed.

(** Whatever the order in which calls of [Run] hand their jobs to the
    worker: a call of [Run] returns only after its job has run; no job
    runs twice; a job runs only after its call has handed it over; and
    while the worker is busy with a job, the call that submitted it is
    blocked waiting for it. *)
Theorem run_returns_after_its_job : forall sched s,
  RunModel.exec sched RunModel.init = Some s ->
  (forall i, RunModel.subs s i = RunModel.r_returned -> In i (RunModel.ran s)) /\
  NoDup (RunModel.ran s) /\
  (forall i, In i (RunModel.ran s) -> RunModel.subs s i <> RunModel.r_send) /\
  (forall i, RunModel.busy_with s = Some i ->
     RunModel.subs s i = RunModel.r_wait).
Proof.
  intros sched s Hex.
  pose proof (runmodel_exec_invariant sched RunModel.init s
                runmodel_init_invariant Hex) as (I1 & I2 & I3 & I4 & I5 & I6 & I7).
  split; [intros i Hi; apply I5; apply I6; exact Hi|].
  split; [exact I1|].
  split; [intros i Hin Hs; destruct (I2 i Hs) as (Hn & _); contradiction|].
  intros i Hb. unfold RunModel.busy_with in Hb.
  destruct (RunModel.worker s) as [|k|k] eqn:Ew; try discriminate Hb;
    inversion Hb; subst k; [apply (I3 i eq_refl) | apply (I4 i eq_refl)].
Qed.

Lemma run_returns_after_its_job_witness :
  let sched := [RunModel.Handover 1; RunModel.RunJob; RunModel.CloseDone;
                RunModel.Handover 0; RunModel.Wake 1; RunModel.RunJob;
                RunModel.CloseDone; RunModel.Wake 0]%nat in
  exists s,
    RunModel.exec sched RunModel.init = Some s /\
    RunModel.ran s = [1; 0]%nat /\
    In 0%nat (RunModel.ran s) /\
    NoDup (RunModel.ran s).
Proof.
  intros sched. eexists. split; [reflexivity|].
  split; [reflexivity|].
  match goal with
  | |- In _ (RunModel.ran ?s) /\ _ =>
    pose proof (run_returns_after_its_job sched s eq_refl) as T
  end.
  destruct T as (T1 & T2 & _).
  split; [apply T1; reflexivity | exact T2].
Defined.

(** ** Setup stops at the first failure *)

Lemma last_app_cons : forall (l l' : list Call) x d,
  last (l ++ x :: l') d = last (x :: l') d.
Proof.
  induction l as [|a l IH]; intros l' x d; [reflexivity|].
  cbn [app]. rewrite <- (IH l' x d).
  destruct (l ++ x :: l') eqn:E; [destruct l; discriminate E | reflexivity].
Qed.

(** When setup returns an error, the last call it made before the
    deferred releases is the one that failed, and the error returned is
    the error of that call, unchanged; or that call is the format query,
    which reported no error but a closest format, and the error is the
    driver's own. *)
Theorem setup_fails_fast : forall P c log e,
  let r := run initOnCOMThread P c log in
  let h := log ++ before_releases (new_calls log (snd r)) in
  fst r = Some e ->
  r_err (P h) = Some e \/
  (e = format_not_supported /\ r_err (P h) = None /\ r_closest (P h) <> None /\
   last h CoUninitialize
   = IsFormatSupported _AUDCLNT_SHAREMODE_SHARED (candidateFormat c)).
Proof.
  intros P c log e r h. subst h r. unfold_drv.
  case_drv; rewrite ?candidateFormat_set_client in *; flatten_log;
    rewrite new_calls_app;
    cbn [before_releases filter is_EnumeratorRelease is_DeviceRelease orb negb];
    intros He; inversion He; subst.
  all: try (left; assumption).
  right. split; [reflexivity|]. split; [assumption|].
  split; [congruence|].
  rewrite last_app_cons. reflexivity.
Qed.

Lemma setup_fails_fast_witness :
  let P := failing is_Initialize (SysErr 7) (scripted 1024 []) in
  let c := new_context 48000 2 7 in
  let r := run initOnCOMThread P c [] in
  fst r = Some (SysErr 7) /\
  r_err (P (before_releases (st_log (snd r)))) = Some (SysErr 7) /\
  existsb is_Initialize (before_releases (st_log (snd r))) = true.
Proof.
  intros P c r.
  assert (H : fst r = Some (SysErr 7)) by reflexivity.
  pose proof (setup_fails_fast P c [] (SysErr 7) H) as T.
  cbv zeta in T.
  split; [exact H|].
  split; [|reflexivity].
  destruct T as [T | (T & _)]; [exact T | discriminate T].
Defined.

(** ** Edges of the frame count *)

Lemma fill_cycle_noop_when_full_witness :
  let P := scripted 1024 [1024] in
  let r := run writeOnRenderThread P stereo_1024 [] in
  is_uint32 (bufferFrames stereo_1024) /\
  uint32 (r_u32 (P [MutexLock; GetCurrentPadding])) = bufferFrames stereo_1024 /\
  fst r = Return None /\
  st_log (snd r) = [MutexLock; GetCurrentPadding; MutexUnlock].
Proof.
  intros P r.
  assert (H1 : is_uint32 (bufferFrames stereo_1024))
    by (vm_compute; split; congruence).
  assert (H2 : r_err (P ([] ++ [MutexLock; GetCurrentPadding])) = None)
    by reflexivity.
  assert (H3 : uint32 (r_u32 (P ([] ++ [MutexLock; GetCurrentPadding])))
               = bufferFrames stereo_1024) by reflexivity.
  pose proof (fill_cycle_noop_when_full P stereo_1024 [] H1 H2 H3) as T.
  cbv zeta in T. destruct T as (T1 & T2 & _).
  split; [exact H1|]. split; [exact H3|]. split; [exact T1 | exact T2].
Defined.

Lemma fill_cycle_wraps_above_capacity_witness :
  let P := scripted 1024 [1030] in
  let r := run writeOnRenderThread P stereo_1024 [] in
  is_uint32 (bufferFrames stereo_1024) /\
  bufferFrames stereo_1024 < uint32 (r_u32 (P [MutexLock; GetCurrentPadding])) /\
  requested (st_log (snd r)) = [2 ^ 32 - 6].
Proof.
  intros P r.
  assert (H1 : is_uint32 (bufferFrames stereo_1024))
    by (vm_compute; split; congruence).
  assert (H2 : r_err (P ([] ++ [MutexLock; GetCurrentPadding])) = None)
    by reflexivity.
  assert (H3 : bufferFrames stereo_1024
               < uint32 (r_u32 (P ([] ++ [MutexLock; GetCurrentPadding]))))
    by reflexivity.
  pose proof (fill_cycle_wraps_above_capacity P stereo_1024 [] H1 H2 H3) as T.
  cbv zeta in T. destruct T as (_ & T2).
  split; [exact H1|]. split; [exact H3|]. exact T2.
Defined.
